(** * Gong call summary agent: call preparation and prompt composition

    A shallow embedding of [prepareCall] and [runGongAgent], the agent
    module of the repository, with the properties the specification states
    about them.

    - JavaScript strings are [string]; the template literal of the source is
      written out as a concatenation, with [nl] for the line breaks.
    - An optional property ([name?: string], a value that may be [null]) is a
      [JsOpt]: [undefined], [null] or a value.  The operators [||] and [?:]
      test JavaScript truthiness, given by the class [Truthy].
    - Numbers: the duration of a call is a whole number of seconds below
      [2^53] in magnitude, a [SafeInteger]; other numbers (fractions, [NaN],
      integers a double does not hold exactly) are outside the model.  On
      safe integers [Math.round(d / 60)] and the conversion to a string are
      exact.
    - [await]ed calls to the sandbox platform and to the hosted tool loop are
      computations in the monad [Async]: they read the platform's answers,
      extend the log of events, and either resolve or reject.
    - The request to the hosted loop goes through the framework's retry,
      with the default of two retries, since the agent sets none.
    - The modules the agent imports and that are not among the sources
      ([config], the sandbox-context module) enter [prepareCall] as
      parameters; [ContextBuilder] models the sandbox-context module from
      the specification. *)

From Stdlib Require Import String Ascii List ZArith QArith Qround Lia Bool Sorted.
From Stdlib Require Import DecimalString.
Import ListNotations.

Local Open Scope list_scope.
Local Open Scope string_scope.

(** ** Strings *)

Module Str.

(** The line break of the template literal. *)
Definition nl : string := String (ascii_of_nat 10) EmptyString.

(** [contains sub s]: [sub] occurs in [s]. *)
Definition contains (sub s : string) : Prop :=
  exists pre post, s = pre ++ sub ++ post.

(** The same test as a function, for concrete strings. *)
Fixpoint containsb (sub s : string) : bool :=
  String.prefix sub s
  || match s with
     | EmptyString => false
     | String _ s' => containsb sub s'
     end.

(** [Array.prototype.join]. *)
Definition join (sep : string) (l : list string) : string :=
  String.concat sep l.

(** [s.split(sep)] for a separator of one character [c]: the pieces between
    the occurrences of [c]; the empty string gives one empty piece. *)
Fixpoint split (c : ascii) (s : string) : list string :=
  match s with
  | EmptyString => [EmptyString]
  | String a s' =>
      if Ascii.eqb a c then EmptyString :: split c s'
      else match split c s' with
           | [] => [String a EmptyString]
           | piece :: rest => String a piece :: rest
           end
  end.

(** [c] does not occur in [s]. *)
Fixpoint free_of (c : ascii) (s : string) : bool :=
  match s with
  | EmptyString => true
  | String a s' => negb (Ascii.eqb a c) && free_of c s'
  end.

End Str.

Import Str.

(** ** JavaScript values *)

(** A property that may be missing: [undefined] (left out), [null], or a
    value. *)
Inductive JsOpt (A : Type) : Type :=
| undefined : JsOpt A
| null : JsOpt A
| val (a : A) : JsOpt A.

Arguments undefined {A}.
Arguments null {A}.
Arguments val {A} a.

(** Truthiness of a value, as [||], [?:] and [if] test it. *)
Class Truthy (A : Type) : Type := truthy : A -> bool.

(** The empty string is falsy, every other string truthy. *)
#[export] Instance Truthy_string : Truthy string :=
  fun s => match s with EmptyString => false | String _ _ => true end.

(** An array is an object: truthy, also when empty. *)
#[export] Instance Truthy_list {A : Type} : Truthy (list A) := fun _ => true.

(** [undefined] and [null] are falsy. *)
#[export] Instance Truthy_JsOpt {A : Type} `{Truthy A} : Truthy (JsOpt A) :=
  fun x => match x with val a => truthy a | _ => false end.

(** [x || y] between two optional values. *)
Definition js_or {A : Type} `{Truthy A} (x y : JsOpt A) : JsOpt A :=
  if truthy x then x else y.

(** [x || d] where [d] is a literal: the result is a value. *)
Definition or_else {A : Type} `{Truthy A} (x : JsOpt A) (d : A) : A :=
  match x with
  | val a => if truthy a then a else d
  | _ => d
  end.

(** The property is missing: left out, or [null]. *)
Definition absent {A : Type} (x : JsOpt A) : Prop :=
  x = undefined \/ x = null.

(** ** Numbers *)

(** The numbers of the model: the safe integers of JavaScript, whole and
    below [2^53] in magnitude.  A double holds each of them exactly. *)
Record SafeInteger : Type := mkSafeInteger {
  int_value : Z;
  int_safe : (Z.abs int_value <? 2 ^ 53)%Z = true
}.

(** [0] is falsy, every other number truthy ([NaN] is not a safe integer). *)
#[export] Instance Truthy_SafeInteger : Truthy SafeInteger :=
  fun n => negb (int_value n =? 0)%Z.

(** [Math.round]: the nearest integer, halves rounded towards plus
    infinity. *)
Definition Math_round (q : Q) : Z := Qfloor (q + (1 # 2)).

(** [Math.round(d / 60)] on whole seconds is the floor of [(d + 30) / 60]. *)
Lemma Math_round_div_60 (d : Z) :
  Math_round (inject_Z d / inject_Z 60) = ((d + 30) / 60)%Z.
Proof.
  unfold Math_round, Qfloor, Qplus, Qdiv, Qmult, Qinv, inject_Z. cbn.
  replace (d * 1 * 2 + 60)%Z with (2 * (d + 30))%Z by ring.
  change 120%Z with (2 * 60)%Z.
  apply Z.div_mul_cancel_l; discriminate.
Qed.

(** It is the integer nearest to [d / 60], a half going up. *)
Lemma Math_round_div_60_nearest (d : Z) :
  let r := Math_round (inject_Z d / inject_Z 60) in
  (60 * r - 30 <= d < 60 * r + 30)%Z.
Proof.
  cbn zeta. rewrite Math_round_div_60.
  pose proof (Z.div_mod (d + 30) 60 ltac:(discriminate)).
  pose proof (Z.mod_pos_bound (d + 30) 60 eq_refl). lia.
Qed.

(** The rounded number of minutes of a safe number of seconds is safe. *)
Lemma minutes_safe (secs : SafeInteger) :
  (Z.abs (Math_round (inject_Z (int_value secs) / inject_Z 60)) <? 2 ^ 53)%Z
  = true.
Proof.
  destruct secs as [d Hd]. cbn [int_value].
  pose proof (Math_round_div_60_nearest d) as Hr. cbn zeta in Hr.
  apply Z.ltb_lt in Hd. apply Z.ltb_lt.
  change (2 ^ 53)%Z with 9007199254740992%Z in *. lia.
Qed.

(** [Math.round(secs / 60)] for a safe integer [secs].  The quotient is a
    double in the source; it lies within [2^-6] of the exact quotient, which
    is at least [1 / 60] away from the next half, so that it rounds to the
    same integer as the exact quotient. *)
Definition minutes (secs : SafeInteger) : SafeInteger :=
  {| int_value := Math_round (inject_Z (int_value secs) / inject_Z 60);
     int_safe := minutes_safe secs |}.

(** Conversion of a safe integer to a string, as [+] with a string does it:
    all its decimal digits, with a minus sign below zero. *)
Definition Number_toString (n : SafeInteger) : string :=
  NilZero.string_of_int (Z.to_int (int_value n)).

(** ** The data model *)

(** One entry of [callData.parties]. *)
Record Party : Type := mkParty {
  name : JsOpt string;
  affiliation : JsOpt string;
  title : JsOpt string
}.

(** [callData.metaData].  [duration] is a whole number of seconds, a safe
    integer. *)
Record CallMetaData : Type := mkCallMetaData {
  meta_title : JsOpt string;
  scheduled : JsOpt string;
  started : JsOpt string;
  duration : JsOpt SafeInteger;
  system : JsOpt string
}.

Record CallData : Type := mkCallData {
  metaData : CallMetaData;
  parties : JsOpt (list Party);
  transcript : JsOpt string
}.

Record GongWebhookData : Type := mkGongWebhookData {
  callData : CallData
}.

(** A file of the sandbox: [{ path, content }]. *)
Record VirtualFile : Type := mkVirtualFile {
  path : string;
  content : string
}.

(** [callOptionsSchema]. *)
Record CallOptions : Type := mkCallOptions {
  webhookData : GongWebhookData;
  sfdcAccountId : JsOpt string
}.

(** The part of [config] the agent reads. *)
Record Config : Type := mkConfig {
  model : string;
  systemPrompt : string;
  companyName : string;
  sandbox_timeout : string;
  salesforce_enabled : bool
}.

(** ** Prompt composition *)

(** The entry of one participant in the Participants section:
    [- ${p.name || 'Unknown'} (${p.affiliation || 'Unknown'})${p.title ? ` - ${p.title}` : ''}] *)
Definition participantLine (p : Party) : string :=
  "- " ++ or_else (name p) "Unknown"
  ++ " (" ++ or_else (affiliation p) "Unknown" ++ ")"
  ++ match title p with
     | val t => if truthy t then " - " ++ t else ""
     | _ => ""
     end.

(** The text after [**Duration:**]:
    [callMeta.duration ? Math.round(callMeta.duration / 60) + ' minutes' : 'Unknown'] *)
Definition durationText (d : JsOpt SafeInteger) : string :=
  match d with
  | val secs =>
      if truthy secs
      then Number_toString (minutes secs) ++ " minutes"
      else "Unknown"
  | _ => "Unknown"
  end.

(** The template literal bound to [instructions] in [prepareCall]; [now] is
    the value of [new Date().toISOString()]. *)
Definition instructions (config : Config) (callMeta : CallMetaData)
  (parties : list Party) (fileTree : string) (now : string) : string :=
  systemPrompt config ++ nl
  ++ nl
  ++ "## Call Context" ++ nl
  ++ nl
  ++ "**Call:** " ++ or_else (meta_title callMeta) "Untitled Call" ++ nl
  ++ "**Date:** "
  ++ or_else (js_or (scheduled callMeta) (started callMeta)) "Unknown" ++ nl
  ++ "**Duration:** " ++ durationText (duration callMeta) ++ nl
  ++ "**System:** " ++ or_else (system callMeta) "Unknown" ++ nl
  ++ nl
  ++ "**Participants:**" ++ nl
  ++ join nl (map participantLine parties) ++ nl
  ++ nl
  ++ "## Filesystem Structure" ++ nl
  ++ "```" ++ nl
  ++ fileTree ++ nl
  ++ "```" ++ nl
  ++ nl
  ++ "## Instructions" ++ nl
  ++ nl
  ++ "1. First, explore the call transcript using the executeCommand tool" ++ nl
  ++ "2. Search for key topics, objections, and action items" ++ nl
  ++ "3. Analyze how objections were handled" ++ nl
  ++ "4. Generate a comprehensive summary" ++ nl
  ++ nl
  ++ "## Metadata" ++ nl
  ++ "- Current date: " ++ now ++ nl
  ++ "- Company: " ++ companyName config.

(** ** The context builder *)

Module ContextBuilder.

(** The directories [prepareCall] makes in the sandbox. *)
Definition callsDir : string := "gong-calls".
Definition crmDir : string := "salesforce".

(** A file is CRM-related when it lies in the CRM directory. *)
Definition crmRelated (f : VirtualFile) : bool :=
  String.prefix (crmDir ++ "/") (path f).

(** Modelled from the spec: the transcript file of the sandbox-context
    module, which is not among the sources.  The transcript text is a
    file of the call directory when the payload has transcript content. *)
Definition transcriptFiles (wd : GongWebhookData) : list VirtualFile :=
  match transcript (callData wd) with
  | val text =>
      if truthy text
      then [ {| path := callsDir ++ "/transcript.md"; content := text |} ]
      else []
  | _ => []
  end.

(** Modelled from the spec: the metadata summary of the sandbox-context
    module; absent data is rendered as the placeholder [Unknown]. *)
Definition metadataFile (wd : GongWebhookData) : VirtualFile :=
  let m := metaData (callData wd) in
  {| path := callsDir ++ "/metadata.md";
     content :=
       "Title: " ++ or_else (meta_title m) "Unknown" ++ nl
       ++ "Scheduled: " ++ or_else (scheduled m) "Unknown" ++ nl
       ++ "Started: " ++ or_else (started m) "Unknown" ++ nl
       ++ "Duration: "
       ++ match duration m with
          | val secs => Number_toString secs
          | _ => "Unknown"
          end ++ nl
       ++ "System: " ++ or_else (system m) "Unknown" |}.

(** Modelled from the spec: the participant list of the sandbox-context
    module, one line per party, absent fields as [Unknown]. *)
Definition participantsFile (wd : GongWebhookData) : VirtualFile :=
  {| path := callsDir ++ "/participants.md";
     content :=
       join nl
         (map (fun p =>
                 or_else (name p) "Unknown" ++ ", "
                 ++ or_else (affiliation p) "Unknown" ++ ", "
                 ++ or_else (title p) "Unknown")
              (or_else (parties (callData wd)) [])) |}.

(** Modelled from the spec: the optional CRM record dump of the
    sandbox-context module, made only when the CRM integration is enabled
    and an account id is supplied. *)
Definition crmFiles (config : Config) (sfdcAccountId : JsOpt string)
  : list VirtualFile :=
  if salesforce_enabled config
  then match sfdcAccountId with
       | val id =>
           if truthy id
           then [ {| path := crmDir ++ "/account.md";
                     content := "Account: " ++ id |} ]
           else []
       | _ => []
       end
  else [].

(** Modelled from the spec: [generateFilesForSandbox] of the
    sandbox-context module, which is not among the sources: the ordered
    list of files made from the payload and the optional account id
    (transcript text, metadata summary, participant list, optional CRM
    record dump); a pure transformation that does not fail. *)
Definition generateFilesForSandbox (config : Config) (wd : GongWebhookData)
    (sfdcAccountId : JsOpt string) : list VirtualFile :=
  (transcriptFiles wd
   ++ [metadataFile wd; participantsFile wd]
   ++ crmFiles config sfdcAccountId)%list.

(** Modelled from the spec: [generateFileTree] of the sandbox-context
    module, which is not among the sources: the listing of the files'
    paths, one per line, in the order of the list. *)
Definition generateFileTree (files : list VirtualFile) : string :=
  join nl (map path files).

(** The entries of a listing: its lines. *)
Definition entries (fileTree : string) : list string :=
  split (ascii_of_nat 10) fileTree.

End ContextBuilder.

(** ** The remote platforms *)

(** The handle [Sandbox.create] resolves to. *)
Record Sandbox : Type := mkSandbox { sandboxId : nat }.

(** Why the framework gave up a call it had retried. *)
Inductive RetryReason : Type :=
| maxRetriesExceeded
| errorNotRetryable.

(** The value a rejected promise carries: an error thrown by a platform,
    with the mark the framework reads on it ([isRetryable] of an API call
    error; [false] on any other error), or the [RetryError] of the
    framework, which wraps the errors of the attempts it made. *)
#[local] Unset Elimination Schemes.
Inductive JsError : Type :=
| Thrown (message : string) (retryable : bool)
| RetryError (reason : RetryReason) (errors : list JsError).
#[local] Set Elimination Schemes.

(** Whether the framework sends the call again after this error. *)
Definition isRetryable (e : JsError) : bool :=
  match e with
  | Thrown _ retryable => retryable
  | RetryError _ _ => false
  end.

(** [createAgentTools(sandbox)]: the tool set, bound to the sandbox it runs
    its commands in. *)
Record AgentTools : Type := createAgentTools { tools_sandbox : Sandbox }.

(** [Output.object({ schema: agentOutputSchema })]. *)
Inductive OutputSpec : Type := Output_object_agentOutputSchema.

(** The [...settings] of a call: what [generate] was given besides
    [options], on top of the agent's own settings. *)
Record CallSettings : Type := mkCallSettings {
  cs_model : string;
  cs_prompt : string
}.

(** What [prepareCall] returns:
    [{ ...settings, instructions, tools, output }]. *)
Record PreparedCall : Type := mkPreparedCall {
  pc_settings : CallSettings;
  pc_instructions : string;
  pc_tools : AgentTools;
  pc_output : OutputSpec
}.

(** The calls that leave the process, in the order they are made, and the
    entry into the agent. *)
Inductive Event : Type :=
| AgentGenerate (prompt : string) (options : CallOptions)
| SandboxCreate (timeout : Z)
| MkDir (sandbox : Sandbox) (dir : string)
| WriteFiles (sandbox : Sandbox) (files : list VirtualFile)
| ToolLoop (call : PreparedCall).

(** The stage of call processing an event belongs to. *)
Definition stage (ev : Event) : nat :=
  match ev with
  | AgentGenerate _ _ => 0
  | SandboxCreate _ => 1
  | MkDir _ _ => 2
  | WriteFiles _ _ => 3
  | ToolLoop _ => 4
  end.

Definition isAgentGenerate (ev : Event) : bool :=
  match ev with AgentGenerate _ _ => true | _ => false end.

Definition isWriteFiles (ev : Event) : bool :=
  match ev with WriteFiles _ _ => true | _ => false end.

Definition isToolLoop (ev : Event) : bool :=
  match ev with ToolLoop _ => true | _ => false end.

Section Effects.

(** The shape of the validated summary is fixed by [agentOutputSchema],
    outside this module. *)
Variable AgentOutput : Type.

(** What the hosted loop resolves to; [runGongAgent] reads [output]. *)
Record GenerateResult : Type := mkGenerateResult { output : AgentOutput }.

(** The answers of the world outside the process during one run: each
    remote call resolves ([inr]) or rejects ([inl]); the hosted loop answers
    each attempt (the first, the second, ...) on a prepared call;
    [Date_toISOString] is what [new Date().toISOString()] gives. *)
Record Platform : Type := mkPlatform {
  create_answer : Z -> JsError + Sandbox;
  mkDir_answer : Sandbox -> string -> JsError + unit;
  writeFiles_answer : Sandbox -> list VirtualFile -> JsError + unit;
  toolLoop_answer : PreparedCall -> nat -> JsError + GenerateResult;
  Date_toISOString : string
}.

(** *** Asynchronous computations

    A computation reads the platform, appends to the log of events and
    resolves or rejects.  A rejection ends the computation: nothing in the
    module catches. *)
Definition Async (A : Type) : Type :=
  Platform -> list Event -> list Event * (JsError + A).

Definition ret {A : Type} (a : A) : Async A :=
  fun _ log => (log, inr a).

Definition bind {A B : Type} (m : Async A) (k : A -> Async B) : Async B :=
  fun P log =>
    match m P log with
    | (log', inr a) => k a P log'
    | (log', inl e) => (log', inl e)
    end.

(** A call [ev] whose outcome is the platform's [answer]. *)
Definition remote {A : Type} (ev : Event) (answer : Platform -> JsError + A)
  : Async A :=
  fun P log => ((log ++ [ev])%list, answer P).

(** Whether an answer resolves, and the error of one that rejects. *)
Definition resolved {A : Type} (r : JsError + A) : bool :=
  match r with inr _ => true | inl _ => false end.

Definition rejected {A : Type} (r : JsError + A) : option JsError :=
  match r with inr _ => None | inl e => Some e end.

(** The rejection, if any, with which the sandbox platform answers the
    call [ev]. *)
Definition sandbox_rejection (P : Platform) (ev : Event) : option JsError :=
  match ev with
  | SandboxCreate timeout => rejected (create_answer P timeout)
  | MkDir sandbox dir => rejected (mkDir_answer P sandbox dir)
  | WriteFiles sandbox files => rejected (writeFiles_answer P sandbox files)
  | AgentGenerate _ _ | ToolLoop _ => None
  end.

(** [retryWithExponentialBackoff] of the framework, which wraps each request
    to the model: [f] is tried; when it rejects, the error joins [errors];
    after more than [maxRetries] failures the framework rejects with a
    [RetryError]; a retryable error is followed by another try; an error
    that is not retryable is passed on as it is on the first try and wrapped
    on a later one.  [retriesLeft] is [maxRetries] less the failures so far.
    The delays between the tries are not modelled. *)
Fixpoint retryWithExponentialBackoff {A : Type} (maxRetries retriesLeft : nat)
    (errors : list JsError) (f : nat -> Async A) {struct retriesLeft}
  : Async A :=
  fun P log =>
    match f (S (List.length errors)) P log with
    | (log', inr a) => (log', inr a)
    | (log', inl error) =>
        if (maxRetries =? 0)%nat then (log', inl error)
        else
          let newErrors := (errors ++ [error])%list in
          match retriesLeft with
          | O => (log', inl (RetryError maxRetriesExceeded newErrors))
          | S fewer =>
              if isRetryable error
              then retryWithExponentialBackoff maxRetries fewer newErrors f P log'
              else match errors with
                   | [] => (log', inl error)
                   | _ :: _ =>
                       (log', inl (RetryError errorNotRetryable newErrors))
                   end
          end
    end.

(** An event of the process itself. *)
Definition emit (ev : Event) : Async unit :=
  fun _ log => ((log ++ [ev])%list, inr tt).

(** Reading the clock leaves no trace. *)
Definition now : Async string :=
  fun P log => (log, inr (Date_toISOString P)).

Definition run {A : Type} (m : Async A) (P : Platform)
  : list Event * (JsError + A) :=
  m P [].

Definition events {A : Type} (m : Async A) (P : Platform) : list Event :=
  fst (run m P).

Definition outcome {A : Type} (m : Async A) (P : Platform) : JsError + A :=
  snd (run m P).

End Effects.

Arguments mkPlatform {AgentOutput}.
Arguments create_answer {AgentOutput}.
Arguments mkDir_answer {AgentOutput}.
Arguments writeFiles_answer {AgentOutput}.
Arguments toolLoop_answer {AgentOutput}.
Arguments Date_toISOString {AgentOutput}.
Arguments mkGenerateResult {AgentOutput}.
Arguments output {AgentOutput}.
Arguments ret {AgentOutput A}.
Arguments bind {AgentOutput A B}.
Arguments remote {AgentOutput A}.
Arguments sandbox_rejection {AgentOutput}.
Arguments retryWithExponentialBackoff {AgentOutput A}.
Arguments emit {AgentOutput}.
Arguments now {AgentOutput}.
Arguments run {AgentOutput A}.
Arguments events {AgentOutput A}.
Arguments outcome {AgentOutput A}.

Declare Scope async_scope.
Delimit Scope async_scope with async.

(** [const x = await m; k] and [await m; k]. *)
Notation "x <- m ;; k" := (bind m (fun x => k))
  (at level 100, m at next level, right associativity) : async_scope.
Notation "m ;; k" := (bind m (fun _ => k))
  (at level 100, right associativity) : async_scope.

(** ** The agent *)

Section Agent.

Context {AgentOutput : Type}.

(** The imported [config]. *)
Variable config : Config.

(** The [ms] package: a duration such as ['5m'] in milliseconds. *)
Variable ms : string -> Z.

(** Modelled from the spec: the two imports from the sandbox-context module,
    which is not among the sources.  The context builder is a pure
    transformation of the payload and the optional account id into an
    ordered list of files, and the file tree is a listing derived from that
    list.  The agent is defined, and its properties hold, for any such pair
    of functions. *)
Variable generateFilesForSandbox :
  GongWebhookData -> JsOpt string -> list VirtualFile.
Variable generateFileTree : list VirtualFile -> string.

Local Open Scope async_scope.

(** The calls on the sandbox platform. *)
Definition Sandbox_create (timeout : Z) : Async AgentOutput Sandbox :=
  remote (SandboxCreate timeout) (fun P => create_answer P timeout).

Definition mkDir (sandbox : Sandbox) (dir : string) : Async AgentOutput unit :=
  remote (MkDir sandbox dir) (fun P => mkDir_answer P sandbox dir).

Definition writeFiles (sandbox : Sandbox) (files : list VirtualFile)
  : Async AgentOutput unit :=
  remote (WriteFiles sandbox files) (fun P => writeFiles_answer P sandbox files).

(** [prepareCall: async ({ options, ...settings }) => ...] *)
Definition prepareCall (options : CallOptions) (settings : CallSettings)
  : Async AgentOutput PreparedCall :=
  (* Create sandbox environment *)
  sandbox <- Sandbox_create (ms (sandbox_timeout config)) ;;
  (* Create directory structure *)
  mkDir sandbox "gong-calls" ;;
  (if salesforce_enabled config then mkDir sandbox "salesforce" else ret tt) ;;
  (* Generate and write context files to sandbox *)
  let files :=
    generateFilesForSandbox (webhookData options) (sfdcAccountId options) in
  (if (0 <? List.length files)%nat then writeFiles sandbox files else ret tt) ;;
  (* Generate file tree for the prompt *)
  let fileTree := generateFileTree files in
  (* Get call metadata for context *)
  let callMeta := metaData (callData (webhookData options)) in
  let parties := or_else (parties (callData (webhookData options))) [] in
  (* Build the system instructions *)
  date <- now ;;
  let instructions := instructions config callMeta parties fileTree date in
  (* Create tools with sandbox instance *)
  let tools := createAgentTools sandbox in
  ret {| pc_settings := settings;
         pc_instructions := instructions;
         pc_tools := tools;
         pc_output := Output_object_agentOutputSchema |}.

(** The agent's settings name no [maxRetries]: the framework's default
    holds. *)
Definition maxRetries : nat := 2.

(** [gongSummaryAgent.generate] of the tool-loop framework (the [ai]
    package): it prepares the call with the agent's [prepareCall], whose
    rejection is the rejection of [generate], then sends the prepared call
    to the hosted loop, under the framework's retry.  The loop is taken at
    its boundary: a request to the model that the platform answers with the
    final result or with an error; the tool round trips in between are part
    of the answer.  Where the framework checks the options against
    [callOptionsSchema] first, the check passes on every payload and on an
    account id that is a string or left out, as the signature of
    [runGongAgent] has it. *)
Definition gongSummaryAgent_generate (prompt : string) (options : CallOptions)
  : Async AgentOutput (GenerateResult AgentOutput) :=
  emit (AgentGenerate prompt options) ;;
  call <- prepareCall options
            {| cs_model := model config; cs_prompt := prompt |} ;;
  retryWithExponentialBackoff maxRetries maxRetries []
    (fun tryNumber =>
       remote (ToolLoop call) (fun P => toolLoop_answer P call tryNumber)).

(** The prompt [runGongAgent] sends. *)
Definition analysisPrompt : string :=
  "Analyze this call transcript and provide a comprehensive summary." ++ nl
  ++ nl
  ++ "Focus on:" ++ nl
  ++ "1. Key discussion points and decisions" ++ nl
  ++ "2. Any objections or concerns raised" ++ nl
  ++ "3. Action items and next steps" ++ nl
  ++ "4. Overall call assessment" ++ nl
  ++ nl
  ++ "Use the executeCommand tool to explore the transcript files before generating your summary.".

(** [runGongAgent(webhookData, sfdcAccountId?)] *)
Definition runGongAgent (webhookData : GongWebhookData)
    (sfdcAccountId : JsOpt string) : Async AgentOutput AgentOutput :=
  result <- gongSummaryAgent_generate analysisPrompt
              {| webhookData := webhookData; sfdcAccountId := sfdcAccountId |} ;;
  ret (output result).

(** The files written for a call. *)
Definition filesOf (options : CallOptions) : list VirtualFile :=
  generateFilesForSandbox (webhookData options) (sfdcAccountId options).

(** The platform carries a preparation through: the sandbox is created, its
    directories are made and the files, if there are any, are written. *)
Definition accepts (P : Platform AgentOutput) (options : CallOptions) : bool :=
  match create_answer P (ms (sandbox_timeout config)) with
  | inl _ => false
  | inr sandbox =>
      resolved (mkDir_answer P sandbox "gong-calls")
      && (if salesforce_enabled config
          then resolved (mkDir_answer P sandbox "salesforce")
          else true)
      && (if (0 <? List.length (filesOf options))%nat
          then resolved (writeFiles_answer P sandbox (filesOf options))
          else true)
  end.

End Agent.

(** ** Sample calls *)

Module Sample.

Definition config : Config :=
  {| model := "model-1";
     systemPrompt := "You are a sales call analyst.";
     companyName := "Acme";
     sandbox_timeout := "10m";
     salesforce_enabled := false |}.

Definition configCrm : Config :=
  {| model := "model-1";
     systemPrompt := "You are a sales call analyst.";
     companyName := "Acme";
     sandbox_timeout := "10m";
     salesforce_enabled := true |}.

Definition ms (s : string) : Z :=
  if (s =? "10m")%string then 600000%Z else 0%Z.

Definition sandbox : Sandbox := {| sandboxId := 1 |}.

Definition date : string := "2024-05-01T10:00:00.000Z".
Definition laterDate : string := "2024-05-01T10:00:07.250Z".

(** A platform on which every call resolves. *)
Definition platform (date : string) : Platform string :=
  {| create_answer := fun _ => inr sandbox;
     mkDir_answer := fun _ _ => inr tt;
     writeFiles_answer := fun _ _ => inr tt;
     toolLoop_answer := fun _ _ => inr {| output := "summary" |};
     Date_toISOString := date |}.

(** A platform that refuses to make directories. *)
Definition mkDirError : JsError := Thrown "mkdir: permission denied" false.

Definition platformNoDirs : Platform string :=
  {| create_answer := fun _ => inr sandbox;
     mkDir_answer := fun _ _ => inl mkDirError;
     writeFiles_answer := fun _ _ => inr tt;
     toolLoop_answer := fun _ _ => inr {| output := "summary" |};
     Date_toISOString := date |}.

(** A call of just under half an hour. *)
Definition seconds1790 : SafeInteger :=
  {| int_value := 1790; int_safe := eq_refl |}.

(** A platform whose model provider is overloaded: every attempt of the
    hosted loop is rejected with an error that may be retried. *)
Definition overloaded : JsError := Thrown "503 Service Unavailable" true.

Definition platformOverloaded : Platform string :=
  {| create_answer := fun _ => inr sandbox;
     mkDir_answer := fun _ _ => inr tt;
     writeFiles_answer := fun _ _ => inr tt;
     toolLoop_answer := fun _ _ => inl overloaded;
     Date_toISOString := date |}.

(** A platform whose model provider is overloaded at the first attempt
    only. *)
Definition platformFlaky : Platform string :=
  {| create_answer := fun _ => inr sandbox;
     mkDir_answer := fun _ _ => inr tt;
     writeFiles_answer := fun _ _ => inr tt;
     toolLoop_answer :=
       fun _ tryNumber =>
         if (tryNumber =? 1)%nat then inl overloaded
         else inr {| output := "summary" |};
     Date_toISOString := date |}.

(** A party without a title, and one with nothing but a title. *)
Definition ann : Party :=
  {| name := val "Ann"; affiliation := val "Internal"; title := undefined |}.

Definition bob : Party :=
  {| name := undefined; affiliation := null; title := val "CTO" |}.

Definition meta : CallMetaData :=
  {| meta_title := val "Quarterly review";
     scheduled := val "2024-04-30T09:00:00Z";
     started := val "2024-04-30T09:02:11Z";
     duration := val seconds1790;
     system := val "Zoom" |}.

Definition metaBare : CallMetaData :=
  {| meta_title := undefined; scheduled := null; started := undefined;
     duration := undefined; system := null |}.

Definition options (m : CallMetaData) (ps : JsOpt (list Party)) : CallOptions :=
  {| webhookData :=
       {| callData :=
            {| metaData := m; parties := ps;
               transcript := val "Ann: hello" |} |};
     sfdcAccountId := val "001A0000012345" |}.

Definition settings : CallSettings :=
  {| cs_model := "model-1"; cs_prompt := "Analyze." |}.

(** The files of the context builder, under a configuration. *)
Definition files (c : Config)
  : GongWebhookData -> JsOpt string -> list VirtualFile :=
  ContextBuilder.generateFilesForSandbox c.

(** A context builder with nothing to write. *)
Definition noFiles : GongWebhookData -> JsOpt string -> list VirtualFile :=
  fun _ _ => [].

Definition prepare (c : Config) : CallOptions -> CallSettings ->
    Async string PreparedCall :=
  prepareCall c ms (files c) ContextBuilder.generateFileTree.

End Sample.

(** ** Values the template cannot tell apart *)

(** A falsy value (the empty string, [0], [null]) put as [undefined]. *)
Definition falsy_as_undefined {A : Type} `{Truthy A} (x : JsOpt A) : JsOpt A :=
  if truthy x then x else undefined.

Definition blankParty (p : Party) : Party :=
  {| name := falsy_as_undefined (name p);
     affiliation := falsy_as_undefined (affiliation p);
     title := falsy_as_undefined (title p) |}.

Definition blankMeta (m : CallMetaData) : CallMetaData :=
  {| meta_title := falsy_as_undefined (meta_title m);
     scheduled := falsy_as_undefined (scheduled m);
     started := falsy_as_undefined (started m);
     duration := falsy_as_undefined (duration m);
     system := falsy_as_undefined (system m) |}.

(** No line break in an optional string. *)
Definition one_line (x : JsOpt string) : bool :=
  match x with
  | val s => free_of (ascii_of_nat 10) s
  | _ => true
  end.

(** No line break in the fields of a party. *)
Definition party_one_line (p : Party) : bool :=
  one_line (name p) && one_line (affiliation p) && one_line (title p).

(** ** The status page *)

Module StatusPage.

(** A rendered element: text, or a tag with its properties, its inline
    style and its children. *)
#[local] Unset Elimination Schemes.
Inductive Node : Type :=
| Text (s : string)
| Element (tag : string) (props : list (string * string))
    (style : list (string * string)) (children : list Node).
#[local] Set Elimination Schemes.

(** The text of a rendered tree, in document order. *)
Fixpoint textContent (n : Node) : string :=
  match n with
  | Text s => s
  | Element _ _ _ children =>
      (fix all (l : list Node) : string :=
         match l with
         | [] => ""
         | c :: l' => textContent c ++ all l'
         end) children
  end.

(** What [validateConfig()] returns. *)
Record ConfigStatus : Type := mkConfigStatus {
  valid : bool;
  errors : list string
}.

(** The part of [config] the page reads. *)
Record PageConfig : Type := mkPageConfig {
  gong_accessKey : JsOpt string;
  slack_enabled : bool;
  salesforce_enabled : bool
}.

(** [HomePage], given what [validateConfig()] returned and the imported
    [config]. *)
Definition HomePage (configStatus : ConfigStatus) (config : PageConfig) : Node :=
  Element "main" []
    [("maxWidth", "800px"); ("margin", "0 auto"); ("padding", "40px 20px");
     ("fontFamily", "system-ui, sans-serif")]
    [ Element "h1" [] [] [Text "Gong Call Summary Agent"];
      Element "p" [] []
        [Text "AI-powered call summary agent that processes Gong webhooks and generates structured summaries using Vercel Sandbox."];
      Element "h2" [] [] [Text "Status"];
      Element "div" []
        [("padding", "16px"); ("borderRadius", "8px");
         ("backgroundColor", if valid configStatus then "#d4edda" else "#f8d7da");
         ("marginBottom", "20px")]
        [ Element "strong" [] [] [Text "Configuration: "];
          if valid configStatus
          then Element "span" [] [("color", "#155724")] [Text "[Valid]"]
          else Element "span" [] [("color", "#721c24")]
                 [Text "[Invalid] - "; Text (join ", " (errors configStatus))] ];
      Element "h2" [] [] [Text "Integrations"];
      Element "ul" [] []
        [ Element "li" [] []
            [ Element "strong" [] [] [Text "Gong API:"]; Text " ";
              Text (if truthy (gong_accessKey config)
                    then "[Configured]" else "[Not configured]") ];
          Element "li" [] []
            [ Element "strong" [] [] [Text "Slack:"]; Text " ";
              Text (if slack_enabled config
                    then "[Enabled]" else "[Disabled] (optional)") ];
          Element "li" [] []
            [ Element "strong" [] [] [Text "Salesforce:"]; Text " ";
              Text (if salesforce_enabled config
                    then "[Enabled]" else "[Disabled] (optional)") ] ];
      Element "h2" [] [] [Text "Webhook Endpoint"];
      Element "p" [] []
        [ Text "Configure your Gong webhook to POST to:";
          Element "br" [] [] [];
          Element "code" []
            [("backgroundColor", "#f4f4f4"); ("padding", "8px 12px");
             ("borderRadius", "4px"); ("display", "inline-block");
             ("marginTop", "8px")]
            [Text "https://your-domain.vercel.app/api/gong-webhook"] ];
      Element "h2" [] [] [Text "Quick Start"];
      Element "ol" [] []
        [ Element "li" [] []
            [Text "Set required environment variables (GONG_ACCESS_KEY, GONG_SECRET_KEY, ANTHROPIC_API_KEY)"];
          Element "li" [] [] [Text "Deploy to Vercel"];
          Element "li" [] []
            [Text "Configure Gong webhook to point to your deployment"];
          Element "li" [] []
            [Text "(Optional) Configure Slack for notifications"] ];
      Element "h2" [] [] [Text "Documentation"];
      Element "p" [] []
        [ Text "See the"; Text " ";
          Element "a"
            [("href", "https://github.com/your-org/gong-call-summary-agent");
             ("target", "_blank"); ("rel", "noopener noreferrer")]
            [] [Text "README"];
          Text " ";
          Text "for full documentation." ] ].

(** The box that reports the configuration: the fourth child of the page. *)
Definition statusBox (page : Node) : option Node :=
  match page with
  | Element _ _ _ children => nth_error children 3
  | Text _ => None
  end.

(** The value of a style property of an element. *)
Definition styleOf (key : string) (n : Node) : option string :=
  match n with
  | Element _ _ style _ =>
      option_map snd (find (fun kv => String.eqb (fst kv) key) style)
  | Text _ => None
  end.

End StatusPage.

(** * Properties *)

(** ** Strings *)

Module StrFacts.

Lemma app_assoc (s t u : string) : (s ++ t) ++ u = s ++ t ++ u.
Proof. induction s as [|a s IH]; simpl; [reflexivity | now rewrite IH]. Qed.

Lemma prefix_app (sub post : string) : String.prefix sub (sub ++ post) = true.
Proof.
  induction sub as [|a sub IH]; simpl.
  - now destruct post.
  - destruct (ascii_dec a a) as [_|ne]; [exact IH | now elim ne].
Qed.

Lemma containsb_prefix (sub s : string) :
  String.prefix sub s = true -> containsb sub s = true.
Proof. intros H. destruct s; cbn [containsb]; rewrite H; reflexivity. Qed.

Lemma containsb_app (sub pre post : string) :
  containsb sub (pre ++ sub ++ post) = true.
Proof.
  induction pre as [|a pre IH].
  - change ("" ++ sub ++ post) with (sub ++ post).
    apply containsb_prefix, prefix_app.
  - cbn [append containsb]. rewrite IH. apply orb_true_r.
Qed.

(** The function decides the proposition (the direction used to show that a
    concrete string does not contain a word). *)
Lemma contains_containsb (sub s : string) :
  contains sub s -> containsb sub s = true.
Proof. intros (pre & post & ->). apply containsb_app. Qed.

Lemma prefix_inv (sub s : string) :
  String.prefix sub s = true -> exists post, s = sub ++ post.
Proof.
  revert s. induction sub as [|a sub IH]; intros s H.
  - exists s. reflexivity.
  - destruct s as [|b s]; simpl in H; [discriminate|].
    destruct (ascii_dec a b) as [->|]; [|discriminate].
    destruct (IH _ H) as [post ->]. now exists post.
Qed.

Lemma containsb_contains (sub s : string) :
  containsb sub s = true -> contains sub s.
Proof.
  induction s as [|a s IH]; cbn [containsb]; intros H.
  - rewrite orb_false_r in H.
    destruct (prefix_inv _ _ H) as [post E]. exists "", post. exact E.
  - apply orb_true_iff in H. destruct H as [H|H].
    + destruct (prefix_inv _ _ H) as [post E]. exists "", post. exact E.
    + destruct (IH H) as (pre & post & ->).
      exists (String a pre), post. reflexivity.
Qed.

Lemma split_free (c : ascii) (s : string) :
  free_of c s = true -> split c s = [s].
Proof.
  induction s as [|a s IH]; cbn [split free_of]; intros H; [reflexivity|].
  apply andb_true_iff in H. destruct H as [Ha Hs].
  apply negb_true_iff in Ha. rewrite Ha, (IH Hs). reflexivity.
Qed.

Lemma split_app_sep (c : ascii) (s rest : string) :
  free_of c s = true -> split c (s ++ String c rest) = s :: split c rest.
Proof.
  induction s as [|a s IH]; cbn [split free_of append]; intros H.
  - rewrite Ascii.eqb_refl. reflexivity.
  - apply andb_true_iff in H. destruct H as [Ha Hs].
    apply negb_true_iff in Ha. rewrite Ha, (IH Hs). reflexivity.
Qed.

(** Splitting undoes joining, for pieces that are free of the separator. *)
Lemma split_join (c : ascii) (l : list string) :
  l <> [] ->
  Forall (fun s => free_of c s = true) l ->
  split c (join (String c "") l) = l.
Proof.
  intros Hne Hfree. induction Hfree as [|s l Hs Hl IH]; [congruence|].
  destruct l as [|t l].
  - cbn [join concat]. now apply split_free.
  - change (join (String c "") (s :: t :: l))
      with (s ++ String c (join (String c "") (t :: l))).
    rewrite split_app_sep by assumption. f_equal. apply IH. discriminate.
Qed.

(** One step of moving a split point to the right. *)
Lemma app_shift (a rest pre tail : string) :
  rest = pre ++ tail -> a ++ rest = (a ++ pre) ++ tail.
Proof. intros ->. symmetry. apply app_assoc. Qed.

End StrFacts.

(** Finds the place of the right-hand side's tail in a concatenation. *)
Ltac split_at_tail :=
  first [ exact eq_refl | eapply StrFacts.app_shift; split_at_tail ].

(** ** JavaScript values *)

Lemma or_else_absent {A : Type} `{Truthy A} (x : JsOpt A) (d : A) :
  absent x -> or_else x d = d.
Proof. intros [->| ->]; reflexivity. Qed.

Lemma or_else_string (s d : string) : s <> "" -> or_else (val s) d = s.
Proof. destruct s; [congruence | reflexivity]. Qed.

Lemma js_or_absent {A : Type} `{Truthy A} (x y : JsOpt A) :
  absent x -> js_or x y = y.
Proof. intros [->| ->]; reflexivity. Qed.

Lemma js_or_string (s : string) (y : JsOpt string) :
  s <> "" -> js_or (val s) y = val s.
Proof. destruct s; [congruence | reflexivity]. Qed.

(** ** Prompt composition *)

(** The date of composition enters the instructions at one place. *)
Lemma instructions_split_date (config : Config) (callMeta : CallMetaData)
    (parties : list Party) (fileTree : string) :
  exists pre, forall date,
    instructions config callMeta parties fileTree date
    = pre ++ "- Current date: " ++ date ++ nl
      ++ "- Company: " ++ companyName config.
Proof. unfold instructions. eexists. intros date. split_at_tail. Qed.

(** So do the parties. *)
Lemma instructions_split_participants (config : Config)
    (callMeta : CallMetaData) (fileTree date : string) :
  exists pre post, forall parties,
    instructions config callMeta parties fileTree date
    = pre ++ "**Participants:**" ++ nl
      ++ join nl (map participantLine parties) ++ nl
      ++ nl
      ++ "## Filesystem Structure" ++ post.
Proof. unfold instructions. eexists _, _. intros parties. split_at_tail. Qed.

(** And the duration. *)
Lemma instructions_split_duration (config : Config) (callMeta : CallMetaData)
    (parties : list Party) (fileTree date : string) :
  exists pre post,
    instructions config callMeta parties fileTree date
    = pre ++ "**Duration:** " ++ durationText (duration callMeta) ++ nl
      ++ "**System:** " ++ post.
Proof. unfold instructions. eexists _, _. split_at_tail. Qed.

(** ** Call preparation *)

(** Unfolding of the asynchronous computations of the agent. *)
Ltac unfold_async :=
  unfold events, outcome, run, runGongAgent, gongSummaryAgent_generate,
    maxRetries, prepareCall, Sandbox_create, mkDir, writeFiles, bind, remote,
    emit, ret, now, filesOf in *.

(** Case analysis on the next answer of the platform. *)
Ltac answer :=
  match goal with
  | |- context [create_answer ?P ?t] =>
      destruct (create_answer P t) as [?e|?sb] eqn:?Hcreate
  | |- context [mkDir_answer ?P ?sb ?d] =>
      destruct (mkDir_answer P sb d) as [?e|[]] eqn:?Hdir
  | |- context [writeFiles_answer ?P ?sb ?fs] =>
      destruct (writeFiles_answer P sb fs) as [?e|[]] eqn:?Hwrite
  | |- context [toolLoop_answer ?P ?c ?n] =>
      destruct (toolLoop_answer P c n) as [?e|?res] eqn:?Hloop
  | |- context [isRetryable ?e] =>
      destruct (isRetryable e) eqn:?Hretry
  | |- context [salesforce_enabled ?c] =>
      destruct (salesforce_enabled c) eqn:?Hcrm
  | |- context [(0 <? ?n)%nat] =>
      destruct (0 <? n)%nat eqn:?Hfiles
  end;
  cbn [fst snd app retryWithExponentialBackoff Nat.eqb List.length].

(** Membership in a log that has been computed. *)
Ltac in_log H :=
  repeat match type of H with
    | In _ (_ :: _) => destruct H as [H|H]
    | In _ [] => destruct H
    | _ = _ => first [discriminate H | injection H as ? ?; subst]
    end.

(** Use of the recorded answers of the platform in [H]. *)
Ltac by_answers H :=
  cbn [sandbox_rejection] in H;
  repeat match goal with
    | E : _ = inl _ |- _ => rewrite E in H
    | E : _ = inr _ |- _ => rewrite E in H
    end;
  cbn [rejected] in H;
  first [discriminate H | injection H as <- | idtac].

(** The event is the last of a computed log. *)
Ltac last_event :=
  first [ eexists []; reflexivity
        | eexists [_]; reflexivity
        | eexists [_; _]; reflexivity
        | eexists [_; _; _]; reflexivity
        | eexists [_; _; _; _]; reflexivity
        | eexists [_; _; _; _; _]; reflexivity
        | eexists [_; _; _; _; _; _]; reflexivity
        | eexists [_; _; _; _; _; _; _]; reflexivity ].

(** The errors of the tries of a failed generation. *)
Ltac errors_of_tries :=
  split; [reflexivity|];
  split; [repeat constructor; eassumption|];
  first [ left; split; [reflexivity | assumption]
        | right; eexists; reflexivity ].

Ltac wrapped_errors :=
  first [ eexists _, [_]; errors_of_tries
        | eexists _, [_; _]; errors_of_tries
        | eexists _, [_; _; _]; errors_of_tries ].

Section AgentProperties.

Context {AgentOutput : Type}.
Variable config : Config.
Variable ms : string -> Z.
Variable generateFilesForSandbox :
  GongWebhookData -> JsOpt string -> list VirtualFile.
Variable generateFileTree : list VirtualFile -> string.

Local Abbreviation prepare :=
  (@prepareCall AgentOutput config ms generateFilesForSandbox generateFileTree).
Local Abbreviation files_of := (filesOf generateFilesForSandbox).
Local Abbreviation accepted := (@accepts AgentOutput config ms generateFilesForSandbox).
Local Abbreviation timeout := (ms (sandbox_timeout config)).

(** The instructions [prepareCall] composes for a call at the date [date]. *)
Local Abbreviation composed options date :=
  (instructions config (metaData (callData (webhookData options)))
     (or_else (parties (callData (webhookData options))) [])
     (generateFileTree (files_of options)) date).


(** When the platform carries the preparation through, [prepareCall]
    resolves, and the prepared call holds the composed instructions and the
    tools of the sandbox that was created. *)
Lemma prepareCall_resolves (P : Platform AgentOutput) (options : CallOptions)
    (settings : CallSettings) :
  accepted P options = true ->
  exists sandbox,
    create_answer P timeout = inr sandbox
    /\ outcome (prepare options settings) P
       = inr {| pc_settings := settings;
                pc_instructions := composed options (Date_toISOString P);
                pc_tools := createAgentTools sandbox;
                pc_output := Output_object_agentOutputSchema |}.
Proof.
  unfold accepts. unfold_async. intros H.
  destruct (create_answer P timeout) as [e|sb]; [discriminate|].
  exists sb. split; [reflexivity|]. cbn [fst snd app].
  repeat answer; cbn in H; try discriminate; reflexivity.
Qed.

(** [prepareCall] rejects only with the error of a remote call. *)
Lemma prepareCall_rejects (P : Platform AgentOutput) (options : CallOptions)
    (settings : CallSettings) (e : JsError) :
  outcome (prepare options settings) P = inl e -> accepted P options = false.
Proof.
  unfold accepts. unfold_async. cbn [fst snd app].
  repeat answer; cbn; intros H; try discriminate; reflexivity.
Qed.


(** With the CRM integration disabled, the only directory made is the one
    of the calls. *)
Lemma prepareCall_dirs_crm_disabled (P : Platform AgentOutput)
    (options : CallOptions) (settings : CallSettings) :
  salesforce_enabled config = false ->
  forall sb dir,
    In (MkDir sb dir) (events (prepare options settings) P) ->
    dir = "gong-calls".
Proof.
  intros Hoff. unfold_async. cbn [fst snd app]. rewrite Hoff.
  repeat answer; intros sb' dir H; in_log H; reflexivity.
Qed.

(** What is written is the list of generated files. *)
Lemma prepareCall_writes_generated (P : Platform AgentOutput)
    (options : CallOptions) (settings : CallSettings) :
  forall sb files,
    In (WriteFiles sb files) (events (prepare options settings) P) ->
    files = files_of options.
Proof.
  unfold_async. cbn [fst snd app].
  repeat answer; intros sb' fs H; in_log H; reflexivity.
Qed.

(** C7. The remote effects of call preparation come in a fixed order: the
    log starts with the creation of the sandbox, directory creations follow,
    then the write of the files; directories are made only in the sandbox
    that was created; and a write of files has, before it in the log, the
    creation of its sandbox and the making of its directories, all of which
    the platform had carried out. *)
Theorem prepareCall_effect_order (P : Platform AgentOutput)
    (options : CallOptions) (settings : CallSettings) :
  let log := events (prepare options settings) P in
  (exists rest, log = SandboxCreate timeout :: rest)
  /\ StronglySorted (fun a b => (stage a <= stage b)%nat) log
  /\ (forall sb dir, In (MkDir sb dir) log -> create_answer P timeout = inr sb)
  /\ (forall sb files, In (WriteFiles sb files) log ->
        exists before after,
          log = (before ++ WriteFiles sb files :: after)%list
          /\ In (SandboxCreate timeout) before
          /\ create_answer P timeout = inr sb
          /\ In (MkDir sb "gong-calls") before
          /\ mkDir_answer P sb "gong-calls" = inr tt
          /\ (salesforce_enabled config = true ->
              In (MkDir sb "salesforce") before
              /\ mkDir_answer P sb "salesforce" = inr tt)
          /\ Forall (fun ev => isWriteFiles ev = false) before).
Proof.
  unfold_async. cbn [fst snd app].
  repeat answer;
    (split; [eexists; reflexivity|]);
    (split; [repeat constructor; cbn; lia|]);
    (split; [intros sb' dir H; in_log H; reflexivity|]);
    intros sb' fs H; in_log H;
    first [ eexists [_; _; _], []; split; [reflexivity|]
          | eexists [_; _], []; split; [reflexivity|] ];
    cbn; repeat split; auto; try discriminate; repeat constructor.
Qed.

(** C8. Once the sandbox and its directories exist, [sandbox.writeFiles] is
    called if and only if the list of generated files is not empty, and then
    once, with that list.  With an empty list no write is made, and the
    preparation still resolves: the instructions are composed with the tree
    of the empty list and the prepared settings are returned. *)
Theorem writeFiles_iff_files (P : Platform AgentOutput)
    (options : CallOptions) (settings : CallSettings) (sandbox : Sandbox) :
  create_answer P timeout = inr sandbox ->
  mkDir_answer P sandbox "gong-calls" = inr tt ->
  (salesforce_enabled config = true ->
   mkDir_answer P sandbox "salesforce" = inr tt) ->
  let files := files_of options in
  let log := events (prepare options settings) P in
  (existsb isWriteFiles log = true <-> files <> [])
  /\ (files <> [] -> filter isWriteFiles log = [WriteFiles sandbox files])
  /\ (files = [] ->
      filter isWriteFiles log = []
      /\ outcome (prepare options settings) P
         = inr {| pc_settings := settings;
                  pc_instructions :=
                    instructions config
                      (metaData (callData (webhookData options)))
                      (or_else (parties (callData (webhookData options))) [])
                      (generateFileTree []) (Date_toISOString P);
                  pc_tools := createAgentTools sandbox;
                  pc_output := Output_object_agentOutputSchema |}).
Proof.
  intros Hcreate Hcalls Hcrm. unfold_async. cbn zeta.
  rewrite Hcreate. cbn [fst snd app]. rewrite Hcalls. cbn [fst snd app].
  destruct (generateFilesForSandbox _ _) as [|f fs];
    destruct (salesforce_enabled config);
    try rewrite (Hcrm eq_refl);
    cbn [List.length Nat.ltb Nat.leb fst snd app];
    try destruct (writeFiles_answer P sandbox (f :: fs)) as [e|[]];
    cbn [fst snd existsb filter isWriteFiles orb];
    repeat split; intros; try congruence; try discriminate.
Qed.

Local Abbreviation run_agent :=
  (@runGongAgent AgentOutput config ms generateFilesForSandbox generateFileTree).




(** *** The composed instructions *)

(** C4. When the platform carries the preparation through, [prepareCall]
    resolves whatever metadata fields are absent, and the instructions open
    with the system prompt followed by the four lines of call metadata, each
    with its fallback: the title of the call or [Untitled Call]; the
    scheduled date, else the started date, else [Unknown]; the duration or
    [Unknown]; the system or [Unknown]. *)
Theorem instructions_metadata_fallbacks (P : Platform AgentOutput)
    (options : CallOptions) (settings : CallSettings) :
  accepted P options = true ->
  let m := metaData (callData (webhookData options)) in
  exists call T D U S post,
    outcome (prepare options settings) P = inr call
    /\ pc_instructions call
       = systemPrompt config ++ nl ++ nl ++ "## Call Context" ++ nl ++ nl
         ++ "**Call:** " ++ T ++ nl
         ++ "**Date:** " ++ D ++ nl
         ++ "**Duration:** " ++ U ++ nl
         ++ "**System:** " ++ S ++ nl
         ++ nl ++ "**Participants:**" ++ post
    /\ (absent (meta_title m) -> T = "Untitled Call")
    /\ (forall t, meta_title m = val t -> t <> "" -> T = t)
    /\ (forall d, scheduled m = val d -> d <> "" -> D = d)
    /\ (absent (scheduled m) ->
        forall d, started m = val d -> d <> "" -> D = d)
    /\ (absent (scheduled m) -> absent (started m) -> D = "Unknown")
    /\ (absent (duration m) -> U = "Unknown")
    /\ (forall secs, duration m = val secs -> int_value secs <> 0%Z ->
        U = Number_toString (minutes secs) ++ " minutes")
    /\ (absent (system m) -> S = "Unknown")
    /\ (forall s, system m = val s -> s <> "" -> S = s).
Proof.
  intros Hacc. cbn zeta.
  destruct (prepareCall_resolves P options settings Hacc) as (sb & _ & Hout).
  set (m := metaData (callData (webhookData options))) in *.
  exists {| pc_settings := settings;
            pc_instructions := composed options (Date_toISOString P);
            pc_tools := createAgentTools sb;
            pc_output := Output_object_agentOutputSchema |},
    (or_else (meta_title m) "Untitled Call"),
    (or_else (js_or (scheduled m) (started m)) "Unknown"),
    (durationText (duration m)),
    (or_else (system m) "Unknown").
  eexists. split; [exact Hout|]. split; [reflexivity|].
  repeat split.
  - apply or_else_absent.
  - intros t -> Ht. now apply or_else_string.
  - intros d -> Hd. rewrite js_or_string by assumption. now apply or_else_string.
  - intros Hs d -> Hd. rewrite js_or_absent by assumption. now apply or_else_string.
  - intros Hs Hst. rewrite js_or_absent by assumption. now apply or_else_absent.
  - intros [->| ->]; reflexivity.
  - intros secs -> Hsecs. unfold durationText, truthy, Truthy_SafeInteger.
    destruct (Z.eqb_spec (int_value secs) 0); [contradiction | reflexivity].
  - apply or_else_absent.
  - intros x -> Hx. now apply or_else_string.
Qed.


(** C10. When the parties of the payload are absent ([undefined] or
    [null]), the list of parties is the empty list, [prepareCall] resolves
    (when the platform carries it through), and nothing stands between the
    heading of the Participants section and the line break that ends it. *)
Theorem instructions_parties_absent (P : Platform AgentOutput)
    (options : CallOptions) (settings : CallSettings) :
  absent (parties (callData (webhookData options))) ->
  accepted P options = true ->
  or_else (parties (callData (webhookData options))) [] = []
  /\ exists call pre post,
       outcome (prepare options settings) P = inr call
       /\ pc_instructions call
          = pre ++ "**Participants:**" ++ nl
            ++ "" ++ nl
            ++ nl
            ++ "## Filesystem Structure" ++ post.
Proof.
  intros Habs Hacc.
  assert (Hnil : or_else (parties (callData (webhookData options))) [] = [])
    by now apply or_else_absent.
  split; [exact Hnil|].
  destruct (prepareCall_resolves P options settings Hacc) as (sb & _ & Hout).
  destruct (instructions_split_participants config
              (metaData (callData (webhookData options)))
              (generateFileTree (files_of options)) (Date_toISOString P))
    as (pre & post & Hsplit).
  eexists _, pre, post. split; [exact Hout|].
  cbn [pc_instructions]. rewrite Hnil. apply (Hsplit []).
Qed.

(** C3. Two runs of the preparation on the same payload and configuration,
    both carried through by the platform, compose instructions that agree
    except for the date after [- Current date: ]; when the two runs read the
    same date, the instructions are the same. *)
Theorem instructions_agree_but_date (P1 P2 : Platform AgentOutput)
    (options : CallOptions) (settings : CallSettings) :
  accepted P1 options = true ->
  accepted P2 options = true ->
  exists call1 call2 pre,
    outcome (prepare options settings) P1 = inr call1
    /\ outcome (prepare options settings) P2 = inr call2
    /\ pc_instructions call1
       = pre ++ "- Current date: " ++ Date_toISOString P1 ++ nl
         ++ "- Company: " ++ companyName config
    /\ pc_instructions call2
       = pre ++ "- Current date: " ++ Date_toISOString P2 ++ nl
         ++ "- Company: " ++ companyName config
    /\ (Date_toISOString P1 = Date_toISOString P2 ->
        pc_instructions call1 = pc_instructions call2).
Proof.
  intros H1 H2.
  destruct (prepareCall_resolves P1 options settings H1) as (sb1 & _ & Hout1).
  destruct (prepareCall_resolves P2 options settings H2) as (sb2 & _ & Hout2).
  destruct (instructions_split_date config
              (metaData (callData (webhookData options)))
              (or_else (parties (callData (webhookData options))) [])
              (generateFileTree (files_of options))) as (pre & Hsplit).
  eexists _, _, pre. split; [exact Hout1|]. split; [exact Hout2|].
  cbn [pc_instructions]. repeat split; try apply Hsplit.
  intros ->. reflexivity.
Qed.

(** C1, as the code has it.  When the platform carries the preparation
    through, [prepareCall] resolves, and the Participants section of the
    instructions is the list of the parties' entries, one per party and in
    the order of the payload, joined by line breaks.  The entry of a party
    is [- N (A)T], where [N] is the name, or [Unknown] when the name is
    missing; [A] is the affiliation, or [Unknown] when it is missing; and
    [T] is [ - ] followed by the title, or nothing when the title is
    missing. *)
Theorem participants_rendered (P : Platform AgentOutput)
    (options : CallOptions) (settings : CallSettings) :
  accepted P options = true ->
  let ps := or_else (parties (callData (webhookData options))) [] in
  exists call pre post entries,
    outcome (prepare options settings) P = inr call
    /\ pc_instructions call
       = pre ++ "**Participants:**" ++ nl
         ++ join nl entries ++ nl
         ++ nl
         ++ "## Filesystem Structure" ++ post
    /\ List.length entries = List.length ps
    /\ forall i p, nth_error ps i = Some p ->
         exists N A T,
           nth_error entries i = Some ("- " ++ N ++ " (" ++ A ++ ")" ++ T)
           /\ (absent (name p) -> N = "Unknown")
           /\ (forall n, name p = val n -> n <> "" -> N = n)
           /\ (absent (affiliation p) -> A = "Unknown")
           /\ (forall a, affiliation p = val a -> a <> "" -> A = a)
           /\ (absent (title p) -> T = "")
           /\ (forall t, title p = val t -> t <> "" -> T = " - " ++ t).
Proof.
  intros Hacc. cbn zeta.
  destruct (prepareCall_resolves P options settings Hacc) as (sb & _ & Hout).
  destruct (instructions_split_participants config
              (metaData (callData (webhookData options)))
              (generateFileTree (files_of options)) (Date_toISOString P))
    as (pre & post & Hsplit).
  eexists _, pre, post, (map participantLine _).
  split; [exact Hout|]. split; [apply Hsplit|]. split; [apply length_map|].
  intros i p Hp.
  exists (or_else (name p) "Unknown"), (or_else (affiliation p) "Unknown"),
    (match title p with
     | val t => if truthy t then " - " ++ t else ""
     | _ => ""
     end).
  split; [apply (map_nth_error participantLine _ _ Hp)|].
  repeat split.
  - apply or_else_absent.
  - intros n -> Hn. now apply or_else_string.
  - apply or_else_absent.
  - intros a -> Ha. now apply or_else_string.
  - intros [->| ->]; reflexivity.
  - intros t -> Ht. destruct t; [congruence | reflexivity].
Qed.

(** *** Further properties of the preparation *)

(** [prepareCall] resolves exactly when every remote call it makes
    resolves: composing the instructions adds no way to fail. *)
Theorem prepareCall_resolves_iff (P : Platform AgentOutput)
    (options : CallOptions) (settings : CallSettings) :
  resolved (outcome (prepare options settings) P) = accepted P options.
Proof.
  unfold accepts. unfold_async. cbn [fst snd app].
  repeat answer; first [reflexivity | congruence].
Qed.

(** The log of a preparation that is carried through: the creation of the
    sandbox with the configured timeout, the directory of the calls, the
    CRM directory when the integration is enabled, and one write of all the
    generated files when there are any; nothing else. *)
Theorem prepareCall_log_accepted (P : Platform AgentOutput)
    (options : CallOptions) (settings : CallSettings) :
  accepted P options = true ->
  exists sb,
    create_answer P timeout = inr sb
    /\ events (prepare options settings) P
       = ([SandboxCreate timeout; MkDir sb "gong-calls"]
          ++ (if salesforce_enabled config then [MkDir sb "salesforce"] else [])
          ++ (if (0 <? List.length (files_of options))%nat
              then [WriteFiles sb (files_of options)] else []))%list.
Proof.
  unfold accepts. unfold_async. intros H.
  destruct (create_answer P timeout) as [e|sb]; [discriminate|].
  exists sb. split; [reflexivity|]. cbn [fst snd app].
  repeat answer; cbn in H; try discriminate; reflexivity.
Qed.

(** One sandbox per call: when [prepareCall] resolves, the tools it returns
    are bound to the sandbox that [Sandbox.create] resolved to, and every
    directory and every write of the run went to that same sandbox. *)
Theorem prepareCall_one_sandbox (P : Platform AgentOutput)
    (options : CallOptions) (settings : CallSettings) (call : PreparedCall) :
  outcome (prepare options settings) P = inr call ->
  create_answer P timeout = inr (tools_sandbox (pc_tools call))
  /\ forall ev, In ev (events (prepare options settings) P) ->
       match ev with
       | SandboxCreate t => t = timeout
       | MkDir sb _ | WriteFiles sb _ => sb = tools_sandbox (pc_tools call)
       | AgentGenerate _ _ | ToolLoop _ => False
       end.
Proof.
  unfold_async. cbn [fst snd app].
  repeat answer; intros H; try discriminate H; injection H as <-;
    (split; [reflexivity|]); intros ev Hin; cbn [In] in Hin;
    repeat (destruct Hin as [<-|Hin]; [reflexivity|]); destruct Hin.
Qed.

(** The payload reaches the sandbox platform through [writeFiles] only: the
    other remote calls of a preparation are the same for every payload,
    account id and settings. *)
Theorem prepareCall_payload_only_in_writes (P : Platform AgentOutput)
    (options1 options2 : CallOptions) (settings1 settings2 : CallSettings) :
  filter (fun ev => negb (isWriteFiles ev))
    (events (prepare options1 settings1) P)
  = filter (fun ev => negb (isWriteFiles ev))
      (events (prepare options2 settings2) P).
Proof.
  unfold_async. cbn [fst snd app].
  repeat answer; reflexivity.
Qed.

(** The hosted loop runs only on a prepared sandbox: a [ToolLoop] event in a
    run of [runGongAgent] means that the preparation was carried through,
    that the loop got what [prepareCall] returned for the payload and
    account id given to [runGongAgent], with the agent's model and the
    analysis prompt as settings, and that the loop is the last event. *)
Theorem runGongAgent_loop_after_preparation (P : Platform AgentOutput)
    (wd : GongWebhookData) (sfdc : JsOpt string) (call : PreparedCall) :
  let options := {| webhookData := wd; sfdcAccountId := sfdc |} in
  let settings := {| cs_model := model config; cs_prompt := analysisPrompt |} in
  In (ToolLoop call) (events (run_agent wd sfdc) P) ->
  accepted P options = true
  /\ outcome (prepare options settings) P = inr call
  /\ pc_settings call = settings
  /\ exists before,
       events (run_agent wd sfdc) P = (before ++ [ToolLoop call])%list.
Proof.
  cbn zeta. unfold accepts. unfold_async.
  cbn [fst snd app webhookData sfdcAccountId].
  repeat answer; intros Hin; try congruence; cbn [In] in Hin;
    repeat match type of Hin with
      | _ \/ _ => destruct Hin as [Hin|Hin]
      | False => destruct Hin
      | _ = _ => first [discriminate Hin | injection Hin as <-]
      end;
    (split; [reflexivity|]); (split; [reflexivity|]);
    (split; [reflexivity|]); last_event.
Qed.

(** What [runGongAgent] writes into the sandbox is what the context builder
    makes of the payload and the account id it was given. *)
Theorem runGongAgent_writes_generated (P : Platform AgentOutput)
    (wd : GongWebhookData) (sfdc : JsOpt string) (sb : Sandbox)
    (files : list VirtualFile) :
  In (WriteFiles sb files) (events (run_agent wd sfdc) P) ->
  files = generateFilesForSandbox wd sfdc
  /\ files <> []
  /\ create_answer P timeout = inr sb.
Proof.
  unfold_async. cbn [fst snd app webhookData sfdcAccountId].
  repeat answer; intros Hin; cbn [In] in Hin;
    repeat match type of Hin with
      | _ \/ _ => destruct Hin as [Hin|Hin]
      | False => destruct Hin
      | _ = _ => first [discriminate Hin | injection Hin as <- <-]
      end;
    (split; [reflexivity|]); (split; [|reflexivity]);
    intros Hnil; rewrite Hnil in *; discriminate.
Qed.

End AgentProperties.

(** ** The context builder *)

Module ContextBuilderFacts.

Import ContextBuilder.

(** The listing of a list of files that is not empty, with paths free of
    line breaks, has the paths as its entries. *)
Lemma fileTree_entries (files : list VirtualFile) :
  files <> [] ->
  Forall (fun f => free_of (ascii_of_nat 10) (path f) = true) files ->
  entries (generateFileTree files) = map path files.
Proof.
  intros Hne Hfree. unfold entries, generateFileTree.
  apply (StrFacts.split_join (ascii_of_nat 10)).
  - destruct files; [congruence | discriminate].
  - clear Hne. induction Hfree; cbn [map]; constructor; assumption.
Qed.

(** The generated files: at least the metadata and the participants. *)
Lemma generated_nonempty (config : Config) (wd : GongWebhookData)
    (sfdc : JsOpt string) :
  generateFilesForSandbox config wd sfdc <> [].
Proof.
  unfold generateFilesForSandbox.
  destruct (transcriptFiles wd); discriminate.
Qed.

(** Their paths hold no line break. *)
Lemma generated_paths_one_line (config : Config) (wd : GongWebhookData)
    (sfdc : JsOpt string) :
  Forall (fun f => free_of (ascii_of_nat 10) (path f) = true)
    (generateFilesForSandbox config wd sfdc).
Proof.
  unfold generateFilesForSandbox, transcriptFiles, crmFiles.
  destruct (transcript (callData wd)) as [| |text];
    [| |destruct (truthy text)];
    (destruct (salesforce_enabled config);
     [destruct sfdc as [| |id]; [| |destruct (truthy id)]|]);
    repeat constructor.
Qed.

(** With the CRM integration disabled, none of them is CRM-related. *)
Lemma generated_no_crm (config : Config) (wd : GongWebhookData)
    (sfdc : JsOpt string) :
  salesforce_enabled config = false ->
  forallb (fun f => negb (crmRelated f)) (generateFilesForSandbox config wd sfdc)
  = true.
Proof.
  intros Hoff. unfold generateFilesForSandbox, transcriptFiles, crmFiles.
  rewrite Hoff.
  destruct (transcript (callData wd)) as [| |text];
    [| |destruct (truthy text)]; reflexivity.
Qed.

End ContextBuilderFacts.

(** C6. The listing made from the generated files has, as its entries,
    the paths of the files: one entry per file, in the order of the list.
    The list is not empty; when the payload has transcript content, its
    first file is the transcript. *)
Theorem fileTree_lists_files (config : Config) (wd : GongWebhookData)
    (sfdc : JsOpt string) :
  let files := ContextBuilder.generateFilesForSandbox config wd sfdc in
  ContextBuilder.entries (ContextBuilder.generateFileTree files)
  = map path files
  /\ files <> []
  /\ (forall text, transcript (callData wd) = val text -> text <> "" ->
      exists rest,
        files = {| path := "gong-calls/transcript.md"; content := text |}
                :: rest).
Proof.
  cbn zeta. split; [|split].
  - apply ContextBuilderFacts.fileTree_entries.
    + apply ContextBuilderFacts.generated_nonempty.
    + apply ContextBuilderFacts.generated_paths_one_line.
  - apply ContextBuilderFacts.generated_nonempty.
  - intros text Htext Hne.
    unfold ContextBuilder.generateFilesForSandbox, ContextBuilder.transcriptFiles.
    rewrite Htext. destruct text; [congruence|]. eexists. reflexivity.
Qed.

(** C2. With the CRM integration disabled in the configuration, call
    preparation makes no directory but the one of the calls, no generated
    file is CRM-related, and no file that is written is, whatever account
    id the options carry. *)
Theorem crm_disabled_no_crm_artifacts {AgentOutput : Type} (config : Config)
    (ms : string -> Z) (P : Platform AgentOutput) (options : CallOptions)
    (settings : CallSettings) :
  salesforce_enabled config = false ->
  let files :=
    ContextBuilder.generateFilesForSandbox config (webhookData options)
      (sfdcAccountId options) in
  let log :=
    events (prepareCall config ms
              (ContextBuilder.generateFilesForSandbox config)
              ContextBuilder.generateFileTree options settings) P in
  (forall sb dir, In (MkDir sb dir) log ->
     dir = ContextBuilder.callsDir /\ dir <> ContextBuilder.crmDir)
  /\ forallb (fun f => negb (ContextBuilder.crmRelated f)) files = true
  /\ (forall sb fs f, In (WriteFiles sb fs) log -> In f fs ->
      ContextBuilder.crmRelated f = false).
Proof.
  intros Hoff. cbn zeta.
  pose proof (ContextBuilderFacts.generated_no_crm config (webhookData options)
                (sfdcAccountId options) Hoff) as Hfiles.
  split; [|split].
  - intros sb dir Hin.
    rewrite (prepareCall_dirs_crm_disabled config ms _ _ P options settings
               Hoff sb dir Hin).
    split; [reflexivity | discriminate].
  - exact Hfiles.
  - intros sb fs f Hin Hf.
    rewrite (prepareCall_writes_generated config ms _ _ P options settings
               sb fs Hin) in Hf.
    rewrite forallb_forall in Hfiles.
    apply negb_true_iff, Hfiles, Hf.
Qed.

(** ** The properties on sample calls *)

(** A call that is carried through: the log and the instructions. *)
Example sample_run :
  run (Sample.prepare Sample.config
         (Sample.options Sample.meta (val [Sample.ann; Sample.bob]))
         Sample.settings)
    (Sample.platform Sample.date)
  = ([SandboxCreate 600000; MkDir Sample.sandbox "gong-calls";
      WriteFiles Sample.sandbox
        (Sample.files Sample.config
           (webhookData (Sample.options Sample.meta (val [Sample.ann; Sample.bob])))
           (val "001A0000012345"))],
     inr {| pc_settings := Sample.settings;
            pc_instructions :=
              "You are a sales call analyst." ++ nl ++ nl
              ++ "## Call Context" ++ nl ++ nl
              ++ "**Call:** Quarterly review" ++ nl
              ++ "**Date:** 2024-04-30T09:00:00Z" ++ nl
              ++ "**Duration:** 30 minutes" ++ nl
              ++ "**System:** Zoom" ++ nl ++ nl
              ++ "**Participants:**" ++ nl
              ++ "- Ann (Internal)" ++ nl
              ++ "- Unknown (Unknown) - CTO" ++ nl ++ nl
              ++ "## Filesystem Structure" ++ nl
              ++ "```" ++ nl
              ++ "gong-calls/transcript.md" ++ nl
              ++ "gong-calls/metadata.md" ++ nl
              ++ "gong-calls/participants.md" ++ nl
              ++ "```" ++ nl ++ nl
              ++ "## Instructions" ++ nl ++ nl
              ++ "1. First, explore the call transcript using the executeCommand tool" ++ nl
              ++ "2. Search for key topics, objections, and action items" ++ nl
              ++ "3. Analyze how objections were handled" ++ nl
              ++ "4. Generate a comprehensive summary" ++ nl ++ nl
              ++ "## Metadata" ++ nl
              ++ "- Current date: 2024-05-01T10:00:00.000Z" ++ nl
              ++ "- Company: Acme";
            pc_tools := createAgentTools Sample.sandbox;
            pc_output := Output_object_agentOutputSchema |}).
Proof. reflexivity. Qed.

(** A run that stops at the first directory. *)
Example sample_run_rejected :
  run (runGongAgent Sample.config Sample.ms (Sample.files Sample.config)
         ContextBuilder.generateFileTree
         (webhookData (Sample.options Sample.meta undefined)) undefined)
    Sample.platformNoDirs
  = ([AgentGenerate analysisPrompt
        {| webhookData := webhookData (Sample.options Sample.meta undefined);
           sfdcAccountId := undefined |};
      SandboxCreate 600000; MkDir Sample.sandbox "gong-calls"],
     inl Sample.mkDirError).
Proof. reflexivity. Qed.

(** A run whose first request to the hosted loop is rejected with a
    retryable error: the request is sent again, and the run resolves. *)
Example sample_run_retried :
  (exists call,
     filter isToolLoop
       (events (runGongAgent Sample.config Sample.ms
                  (Sample.files Sample.config) ContextBuilder.generateFileTree
                  (webhookData (Sample.options Sample.meta undefined))
                  undefined)
          Sample.platformFlaky)
     = [ToolLoop call; ToolLoop call])
  /\ outcome (runGongAgent Sample.config Sample.ms (Sample.files Sample.config)
                ContextBuilder.generateFileTree
                (webhookData (Sample.options Sample.meta undefined)) undefined)
       Sample.platformFlaky
     = inr "summary".
Proof. split; [eexists; reflexivity | reflexivity]. Qed.

(** C1, refuted as stated.  The party [ann] has no title; her entry is
    [- Ann (Internal)], without a placeholder for the title, and the
    instructions composed for a call with her as the only party hold no
    [Unknown] at all. *)
Lemma missing_title_no_placeholder :
  title Sample.ann = undefined
  /\ participantLine Sample.ann = "- Ann (Internal)"
  /\ ~ contains "Unknown"
        (instructions Sample.config Sample.meta [Sample.ann]
           "gong-calls/transcript.md" Sample.date)
  /\ exists call,
       outcome (Sample.prepare Sample.config
                  (Sample.options Sample.meta (val [Sample.ann]))
                  Sample.settings)
         (Sample.platform Sample.date)
       = inr call
       /\ ~ contains "Unknown" (pc_instructions call).
Proof.
  split; [reflexivity|]. split; [reflexivity|]. split.
  - intros H. apply StrFacts.contains_containsb in H.
    vm_compute in H. discriminate H.
  - eexists. split; [reflexivity|].
    intros H. apply StrFacts.contains_containsb in H.
    vm_compute in H. discriminate H.
Qed.

(** The amended C1 on a call with the parties [ann] and [bob]. *)
Lemma participants_rendered_witness :
  accepts Sample.config Sample.ms (Sample.files Sample.config)
    (Sample.platform Sample.date)
    (Sample.options Sample.meta (val [Sample.ann; Sample.bob])) = true
  /\ exists call pre post entries,
       outcome (Sample.prepare Sample.config
                  (Sample.options Sample.meta (val [Sample.ann; Sample.bob]))
                  Sample.settings)
         (Sample.platform Sample.date) = inr call
       /\ pc_instructions call
          = pre ++ "**Participants:**" ++ nl ++ join nl entries ++ nl ++ nl
            ++ "## Filesystem Structure" ++ post
       /\ List.length entries = 2%nat.
Proof.
  split; [reflexivity|].
  destruct (participants_rendered Sample.config Sample.ms
              (Sample.files Sample.config) ContextBuilder.generateFileTree
              (Sample.platform Sample.date)
              (Sample.options Sample.meta (val [Sample.ann; Sample.bob]))
              Sample.settings eq_refl)
    as (call & pre & post & entries & Hout & Hsplit & Hlen & _).
  exists call, pre, post, entries. repeat split; assumption.
Defined.

(** C2 on a call that carries an account id, with the CRM disabled. *)
Lemma crm_disabled_no_crm_artifacts_witness :
  salesforce_enabled Sample.config = false
  /\ forallb (fun f => negb (ContextBuilder.crmRelated f))
       (ContextBuilder.generateFilesForSandbox Sample.config
          (webhookData (Sample.options Sample.meta undefined))
          (val "001A0000012345")) = true.
Proof.
  split; [reflexivity|].
  destruct (crm_disabled_no_crm_artifacts Sample.config Sample.ms
              (Sample.platform Sample.date)
              (Sample.options Sample.meta undefined) Sample.settings eq_refl)
    as (_ & Hfiles & _).
  exact Hfiles.
Defined.

(** C3 on two runs seven seconds apart. *)
Lemma instructions_agree_but_date_witness :
  accepts Sample.config Sample.ms (Sample.files Sample.config)
    (Sample.platform Sample.date) (Sample.options Sample.meta undefined) = true
  /\ accepts Sample.config Sample.ms (Sample.files Sample.config)
       (Sample.platform Sample.laterDate)
       (Sample.options Sample.meta undefined) = true
  /\ exists call1 call2 pre,
       pc_instructions call1
       = pre ++ "- Current date: " ++ Sample.date ++ nl ++ "- Company: Acme"
       /\ pc_instructions call2
          = pre ++ "- Current date: " ++ Sample.laterDate ++ nl
            ++ "- Company: Acme".
Proof.
  split; [reflexivity|]. split; [reflexivity|].
  destruct (instructions_agree_but_date Sample.config Sample.ms
              (Sample.files Sample.config) ContextBuilder.generateFileTree
              (Sample.platform Sample.date) (Sample.platform Sample.laterDate)
              (Sample.options Sample.meta undefined) Sample.settings
              eq_refl eq_refl)
    as (call1 & call2 & pre & _ & _ & H1 & H2 & _).
  exists call1, call2, pre. split; assumption.
Defined.

(** C4 on a call without metadata. *)
Lemma instructions_metadata_fallbacks_witness :
  accepts Sample.config Sample.ms (Sample.files Sample.config)
    (Sample.platform Sample.date)
    (Sample.options Sample.metaBare undefined) = true
  /\ exists call post,
       outcome (Sample.prepare Sample.config
                  (Sample.options Sample.metaBare undefined) Sample.settings)
         (Sample.platform Sample.date) = inr call
       /\ pc_instructions call
          = "You are a sales call analyst." ++ nl ++ nl
            ++ "## Call Context" ++ nl ++ nl
            ++ "**Call:** Untitled Call" ++ nl
            ++ "**Date:** Unknown" ++ nl
            ++ "**Duration:** Unknown" ++ nl
            ++ "**System:** Unknown" ++ nl
            ++ nl ++ "**Participants:**" ++ post.
Proof.
  split; [reflexivity|].
  destruct (instructions_metadata_fallbacks Sample.config Sample.ms
              (Sample.files Sample.config) ContextBuilder.generateFileTree
              (Sample.platform Sample.date)
              (Sample.options Sample.metaBare undefined) Sample.settings
              eq_refl)
    as (call & T & D & U & S & post & Hout & Hsplit
        & HT & _ & _ & _ & HD & HU & _ & HS & _).
  exists call, post. split; [exact Hout|].
  rewrite Hsplit.
  rewrite (HT (or_introl eq_refl)).
  rewrite (HD (or_intror eq_refl) (or_introl eq_refl)).
  rewrite (HU (or_introl eq_refl)).
  rewrite (HS (or_intror eq_refl)).
  reflexivity.
Defined.



(** C6 on a payload with a transcript. *)
Lemma fileTree_lists_files_witness :
  ContextBuilder.entries
    (ContextBuilder.generateFileTree
       (ContextBuilder.generateFilesForSandbox Sample.configCrm
          (webhookData (Sample.options Sample.meta undefined))
          (val "001A0000012345")))
  = ["gong-calls/transcript.md"; "gong-calls/metadata.md";
     "gong-calls/participants.md"; "salesforce/account.md"]
  /\ exists rest,
       ContextBuilder.generateFilesForSandbox Sample.configCrm
         (webhookData (Sample.options Sample.meta undefined))
         (val "001A0000012345")
       = {| path := "gong-calls/transcript.md"; content := "Ann: hello" |}
         :: rest.
Proof.
  destruct (fileTree_lists_files Sample.configCrm
              (webhookData (Sample.options Sample.meta undefined))
              (val "001A0000012345"))
    as (Hentries & _ & Hfirst).
  split.
  - rewrite Hentries. reflexivity.
  - apply (Hfirst "Ann: hello"); [reflexivity | discriminate].
Defined.

(** C7 on a call with the CRM enabled: the write comes after the creation
    of the sandbox and the making of both directories. *)
Lemma prepareCall_effect_order_witness :
  exists before after,
    events (Sample.prepare Sample.configCrm
              (Sample.options Sample.meta undefined) Sample.settings)
      (Sample.platform Sample.date)
    = (before
       ++ WriteFiles Sample.sandbox
            (Sample.files Sample.configCrm
               (webhookData (Sample.options Sample.meta undefined))
               (val "001A0000012345"))
          :: after)%list
    /\ In (SandboxCreate 600000) before
    /\ In (MkDir Sample.sandbox "gong-calls") before
    /\ In (MkDir Sample.sandbox "salesforce") before.
Proof.
  destruct (prepareCall_effect_order Sample.configCrm Sample.ms
              (Sample.files Sample.configCrm) ContextBuilder.generateFileTree
              (Sample.platform Sample.date)
              (Sample.options Sample.meta undefined) Sample.settings)
    as (_ & _ & _ & Hwrite).
  destruct (Hwrite Sample.sandbox
              (Sample.files Sample.configCrm
                 (webhookData (Sample.options Sample.meta undefined))
                 (val "001A0000012345")))
    as (before & after & Hlog & Hcreate & _ & Hcalls & _ & Hcrm & _).
  - right. right. right. left. reflexivity.
  - exists before, after. repeat split; try assumption.
    apply (Hcrm eq_refl).
Defined.

(** C8 on a context builder with nothing to write. *)
Lemma writeFiles_iff_files_witness :
  create_answer (Sample.platform Sample.date) (Sample.ms "10m")
  = inr Sample.sandbox
  /\ mkDir_answer (Sample.platform Sample.date) Sample.sandbox "gong-calls"
     = inr tt
  /\ filter isWriteFiles
       (events (prepareCall Sample.config Sample.ms Sample.noFiles
                  ContextBuilder.generateFileTree
                  (Sample.options Sample.meta undefined) Sample.settings)
          (Sample.platform Sample.date)) = []
  /\ exists call,
       outcome (prepareCall Sample.config Sample.ms Sample.noFiles
                  ContextBuilder.generateFileTree
                  (Sample.options Sample.meta undefined) Sample.settings)
         (Sample.platform Sample.date) = inr call
       /\ contains ("## Filesystem Structure" ++ nl ++ "```" ++ nl ++ ""
                    ++ nl ++ "```")
            (pc_instructions call).
Proof.
  split; [reflexivity|]. split; [reflexivity|].
  destruct (writeFiles_iff_files Sample.config Sample.ms Sample.noFiles
              ContextBuilder.generateFileTree (Sample.platform Sample.date)
              (Sample.options Sample.meta undefined) Sample.settings
              Sample.sandbox eq_refl eq_refl (fun _ => eq_refl))
    as (_ & _ & Hempty).
  destruct (Hempty eq_refl) as (Hnone & Hout).
  split; [exact Hnone|].
  eexists. split; [exact Hout|].
  apply StrFacts.containsb_contains. reflexivity.
Defined.


(** C10 on a payload without parties. *)
Lemma instructions_parties_absent_witness :
  absent (parties (callData (webhookData (Sample.options Sample.meta null))))
  /\ accepts Sample.config Sample.ms (Sample.files Sample.config)
       (Sample.platform Sample.date) (Sample.options Sample.meta null) = true
  /\ exists call pre post,
       outcome (Sample.prepare Sample.config
                  (Sample.options Sample.meta null) Sample.settings)
         (Sample.platform Sample.date) = inr call
       /\ pc_instructions call
          = pre ++ "**Participants:**" ++ nl ++ "" ++ nl ++ nl
            ++ "## Filesystem Structure" ++ post.
Proof.
  split; [right; reflexivity|]. split; [reflexivity|].
  apply (instructions_parties_absent Sample.config Sample.ms
           (Sample.files Sample.config) ContextBuilder.generateFileTree
           (Sample.platform Sample.date) (Sample.options Sample.meta null)
           Sample.settings (or_intror eq_refl) eq_refl).
Defined.

(** * Further properties *)

(** ** Falsy values in the template *)

Lemma or_else_falsy_as_undefined {A : Type} `{Truthy A} (x : JsOpt A) (d : A) :
  or_else (falsy_as_undefined x) d = or_else x d.
Proof.
  destruct x as [| |a]; try reflexivity.
  unfold falsy_as_undefined. cbn. destruct (truthy a) eqn:E; cbn; [|reflexivity].
  rewrite E. reflexivity.
Qed.

Lemma js_or_falsy_as_undefined (x y : JsOpt string) (d : string) :
  or_else (js_or (falsy_as_undefined x) (falsy_as_undefined y)) d
  = or_else (js_or x y) d.
Proof.
  destruct x as [| |[|a s]]; try reflexivity;
    apply (or_else_falsy_as_undefined y d).
Qed.

Lemma durationText_falsy_as_undefined (d : JsOpt SafeInteger) :
  durationText (falsy_as_undefined d) = durationText d.
Proof.
  destruct d as [| |secs]; try reflexivity.
  unfold falsy_as_undefined. cbn.
  destruct (truthy secs) eqn:E; cbn; [rewrite E|]; reflexivity.
Qed.

Lemma participantLine_blankParty (p : Party) :
  participantLine (blankParty p) = participantLine p.
Proof.
  unfold participantLine, blankParty. cbn [name affiliation title].
  rewrite !or_else_falsy_as_undefined.
  destruct (title p) as [| |[|a t]]; reflexivity.
Qed.

(** The template tells a missing field from a present one by truthiness
    only: the empty string, a duration of [0] and [null] give the same
    instructions as [undefined], in the metadata and in every party. *)
Theorem instructions_falsy_as_missing (config : Config) (m : CallMetaData)
    (ps : list Party) (fileTree date : string) :
  instructions config (blankMeta m) (map blankParty ps) fileTree date
  = instructions config m ps fileTree date.
Proof.
  unfold instructions, blankMeta.
  cbn [meta_title scheduled started duration system].
  rewrite !or_else_falsy_as_undefined, js_or_falsy_as_undefined,
    durationText_falsy_as_undefined, map_map.
  rewrite (map_ext _ _ participantLine_blankParty). reflexivity.
Qed.

(** ** The lines of the Participants section *)

Lemma free_of_app (c : ascii) (s t : string) :
  free_of c (s ++ t) = free_of c s && free_of c t.
Proof.
  induction s as [|a s IH]; cbn [append free_of]; [reflexivity|].
  rewrite IH. apply andb_assoc.
Qed.

Lemma or_else_one_line (x : JsOpt string) (d : string) :
  one_line x = true -> free_of (ascii_of_nat 10) d = true ->
  free_of (ascii_of_nat 10) (or_else x d) = true.
Proof.
  destruct x as [| |[|a s]]; cbn; intros Hx Hd; assumption.
Qed.

Lemma participantLine_one_line (p : Party) :
  party_one_line p = true ->
  free_of (ascii_of_nat 10) (participantLine p) = true.
Proof.
  unfold party_one_line, participantLine. intros H.
  apply andb_true_iff in H. destruct H as [H Ht].
  apply andb_true_iff in H. destruct H as [Hn Ha].
  rewrite !free_of_app.
  rewrite (or_else_one_line _ "Unknown" Hn eq_refl).
  rewrite (or_else_one_line _ "Unknown" Ha eq_refl).
  destruct (title p) as [| |[|a t]]; try reflexivity.
  cbn [truthy Truthy_string]. rewrite free_of_app. cbn in Ht |- *. exact Ht.
Qed.

(** One line per participant: when no field of a party holds a line break,
    the lines of the Participants section are the entries of the parties,
    one per party and in the order of the payload. *)
Theorem participants_one_line_each (ps : list Party) :
  ps <> [] ->
  forallb party_one_line ps = true ->
  split (ascii_of_nat 10) (join nl (map participantLine ps))
  = map participantLine ps.
Proof.
  intros Hne Hall. apply (StrFacts.split_join (ascii_of_nat 10)).
  - destruct ps; [congruence | discriminate].
  - rewrite forallb_forall in Hall. apply Forall_forall.
    intros line Hin. apply in_map_iff in Hin. destruct Hin as (p & <- & Hp).
    apply participantLine_one_line, Hall, Hp.
Qed.

Lemma participants_one_line_each_witness :
  [Sample.ann; Sample.bob] <> []
  /\ forallb party_one_line [Sample.ann; Sample.bob] = true
  /\ split (ascii_of_nat 10)
       (join nl (map participantLine [Sample.ann; Sample.bob]))
     = ["- Ann (Internal)"; "- Unknown (Unknown) - CTO"].
Proof.
  split; [discriminate|]. split; [reflexivity|].
  rewrite (participants_one_line_each [Sample.ann; Sample.bob]);
    [reflexivity | discriminate | reflexivity].
Defined.

(** ** Short and whole durations *)

(** A duration under half a minute (and not [0]) is reported as
    [0 minutes], not as [Unknown], and a whole number [k] of minutes, given
    as [60 * k] seconds (a safe integer), as [k minutes]. *)
Theorem durationText_edges :
  (forall secs : SafeInteger,
     (-30 <= int_value secs < 30)%Z -> int_value secs <> 0%Z ->
     durationText (val secs) = "0 minutes")
  /\ (forall (secs : SafeInteger) (k : Z),
       int_value secs = (60 * k)%Z -> k <> 0%Z ->
       int_value (minutes secs) = k
       /\ durationText (val secs) = Number_toString (minutes secs) ++ " minutes").
Proof.
  split.
  - intros secs Hrange Hnz. unfold durationText, truthy, Truthy_SafeInteger.
    destruct (Z.eqb_spec (int_value secs) 0); [contradiction|]. cbn [negb].
    unfold Number_toString, minutes. cbn [int_value].
    rewrite Math_round_div_60, Z.div_small by lia. reflexivity.
  - intros secs k Hsecs Hk. split.
    + cbn [minutes int_value]. rewrite Math_round_div_60, Hsecs.
      symmetry. apply (Z.div_unique_pos _ _ _ 30); lia.
    + unfold durationText, truthy, Truthy_SafeInteger.
      destruct (Z.eqb_spec (int_value secs) 0); [lia | reflexivity].
Qed.

Lemma durationText_edges_witness :
  durationText (val {| int_value := 29; int_safe := eq_refl |}) = "0 minutes"
  /\ durationText (val {| int_value := 2700; int_safe := eq_refl |})
     = "45 minutes".
Proof.
  destruct durationText_edges as [Hshort Hwhole]. split.
  - apply (Hshort {| int_value := 29; int_safe := eq_refl |});
      [split|]; [discriminate | reflexivity | discriminate].
  - destruct (Hwhole {| int_value := 2700; int_safe := eq_refl |} 45%Z)
      as [_ Htext]; [reflexivity | discriminate |].
    rewrite Htext. reflexivity.
Defined.

(** ** The status page *)

Module StatusPageFacts.

Import StatusPage.

Lemma contains_app_l (sub s t : string) :
  contains sub s -> contains sub (s ++ t).
Proof.
  intros (pre & post & ->). exists pre, (post ++ t).
  now rewrite !StrFacts.app_assoc.
Qed.

Lemma contains_app_r (sub s t : string) :
  contains sub t -> contains sub (s ++ t).
Proof.
  intros (pre & post & ->). exists (s ++ pre), post.
  now rewrite StrFacts.app_assoc.
Qed.

Lemma app_empty_r (s : string) : s ++ "" = s.
Proof. induction s as [|a s IH]; cbn; congruence. Qed.

Lemma contains_refl (s : string) : contains s s.
Proof. exists "", "". cbn. now rewrite app_empty_r. Qed.

(** A joined list holds each of its members. *)
Lemma contains_join (sep e : string) (l : list string) :
  In e l -> contains e (join sep l).
Proof.
  induction l as [|x l IH]; intros Hin; [destruct Hin|].
  destruct l as [|y l].
  - destruct Hin as [->|[]]. apply contains_refl.
  - change (join sep (x :: y :: l)) with (x ++ sep ++ join sep (y :: l)).
    destruct Hin as [->|Hin].
    + apply contains_app_l, contains_refl.
    + apply contains_app_r, contains_app_r, IH, Hin.
Qed.

End StatusPageFacts.

(** Finds a part of a concatenation that is known to hold the word. *)
Ltac find_part H :=
  first [ exact H
        | apply StatusPageFacts.contains_app_l; find_part H
        | apply StatusPageFacts.contains_app_r; find_part H ].

(** What the status page shows of the configuration, and nothing more:
    whether it is valid, the joined error messages when it is not, whether
    a Gong access key is set, and whether the Slack and the Salesforce
    integrations are enabled.  Two configurations that agree on these give
    the same page, so the value of the access key never reaches the page;
    and two that differ on one of them give different pages. *)
Theorem HomePage_shows_exactly (st st' : StatusPage.ConfigStatus)
    (c c' : StatusPage.PageConfig) :
  StatusPage.HomePage st c = StatusPage.HomePage st' c'
  <-> StatusPage.valid st = StatusPage.valid st'
      /\ (StatusPage.valid st = false ->
          join ", " (StatusPage.errors st) = join ", " (StatusPage.errors st'))
      /\ truthy (StatusPage.gong_accessKey c)
         = truthy (StatusPage.gong_accessKey c')
      /\ StatusPage.slack_enabled c = StatusPage.slack_enabled c'
      /\ StatusPage.salesforce_enabled c = StatusPage.salesforce_enabled c'.
Proof.
  destruct st as [v e], st' as [v' e'], c as [k s r], c' as [k' s' r'].
  unfold StatusPage.HomePage.
  cbn [StatusPage.valid StatusPage.errors StatusPage.gong_accessKey
       StatusPage.slack_enabled StatusPage.salesforce_enabled].
  split.
  - intros H.
    destruct v, v', (truthy k), (truthy k'), s, s', r, r';
      try discriminate H;
      repeat split; try reflexivity; try (intros; discriminate);
      intros _; injection H as H; exact H.
  - intros (Hv & He & Hk & Hs & Hr). subst v' s' r'. rewrite Hk.
    destruct v; [reflexivity|]. rewrite (He eq_refl). reflexivity.
Qed.

Lemma HomePage_shows_exactly_witness :
  StatusPage.HomePage
    {| StatusPage.valid := true; StatusPage.errors := ["ignored"] |}
    {| StatusPage.gong_accessKey := val "key-one";
       StatusPage.slack_enabled := false; StatusPage.salesforce_enabled := true |}
  = StatusPage.HomePage
      {| StatusPage.valid := true; StatusPage.errors := [] |}
      {| StatusPage.gong_accessKey := val "another-key";
         StatusPage.slack_enabled := false; StatusPage.salesforce_enabled := true |}.
Proof.
  apply HomePage_shows_exactly.
  repeat split; try reflexivity. intros H. discriminate H.
Defined.

(** With an invalid configuration the page reads [[Invalid] - ] followed by
    the error messages joined by [, ], so that every error message is in
    the text of the page; with a valid one it reads [[Valid]]. *)
Theorem HomePage_reports_errors (st : StatusPage.ConfigStatus)
    (c : StatusPage.PageConfig) :
  let text := StatusPage.textContent (StatusPage.HomePage st c) in
  (StatusPage.valid st = false ->
     contains ("Configuration: [Invalid] - "
               ++ join ", " (StatusPage.errors st)) text
     /\ forall e, In e (StatusPage.errors st) -> contains e text)
  /\ (StatusPage.valid st = true -> contains "Configuration: [Valid]" text).
Proof.
  cbn zeta. unfold StatusPage.HomePage. split; intros Hv; rewrite Hv;
    cbn [StatusPage.textContent]; rewrite !StatusPageFacts.app_empty_r.
  - pose proof (StatusPageFacts.contains_refl
                  ("Configuration: [Invalid] - "
                   ++ join ", " (StatusPage.errors st))) as Hbox.
    split.
    + apply StatusPageFacts.contains_app_r, StatusPageFacts.contains_app_r,
        StatusPageFacts.contains_app_r, StatusPageFacts.contains_app_l.
      exact Hbox.
    + intros e He.
      pose proof (StatusPageFacts.contains_join ", " e _ He) as Hjoin.
      find_part Hjoin.
  - pose proof (StatusPageFacts.contains_refl "Configuration: [Valid]") as Hbox.
    apply StatusPageFacts.contains_app_r, StatusPageFacts.contains_app_r,
      StatusPageFacts.contains_app_r, StatusPageFacts.contains_app_l.
    exact Hbox.
Qed.

Lemma HomePage_reports_errors_witness :
  contains "GONG_ACCESS_KEY is required"
    (StatusPage.textContent
       (StatusPage.HomePage
          {| StatusPage.valid := false;
             StatusPage.errors :=
               ["GONG_ACCESS_KEY is required"; "GONG_SECRET_KEY is required"] |}
          {| StatusPage.gong_accessKey := undefined;
             StatusPage.slack_enabled := false;
             StatusPage.salesforce_enabled := false |})).
Proof.
  destruct (HomePage_reports_errors
              {| StatusPage.valid := false;
                 StatusPage.errors :=
                   ["GONG_ACCESS_KEY is required";
                    "GONG_SECRET_KEY is required"] |}
              {| StatusPage.gong_accessKey := undefined;
                 StatusPage.slack_enabled := false;
                 StatusPage.salesforce_enabled := false |}) as [Hinvalid _].
  destruct (Hinvalid eq_refl) as [_ Heach].
  apply Heach. left. reflexivity.
Defined.

(** ** The further properties of the preparation on sample calls *)

Lemma prepareCall_log_accepted_witness :
  accepts Sample.configCrm Sample.ms (Sample.files Sample.configCrm)
    (Sample.platform Sample.date) (Sample.options Sample.meta undefined) = true
  /\ events (Sample.prepare Sample.configCrm
               (Sample.options Sample.meta undefined) Sample.settings)
       (Sample.platform Sample.date)
     = [SandboxCreate 600000; MkDir Sample.sandbox "gong-calls";
        MkDir Sample.sandbox "salesforce";
        WriteFiles Sample.sandbox
          (Sample.files Sample.configCrm
             (webhookData (Sample.options Sample.meta undefined))
             (val "001A0000012345"))].
Proof.
  split; [reflexivity|].
  destruct (prepareCall_log_accepted Sample.configCrm Sample.ms
              (Sample.files Sample.configCrm) ContextBuilder.generateFileTree
              (Sample.platform Sample.date)
              (Sample.options Sample.meta undefined) Sample.settings eq_refl)
    as (sb & Hsb & Hlog).
  injection Hsb as <-. exact Hlog.
Defined.

Lemma prepareCall_one_sandbox_witness :
  exists call,
    outcome (Sample.prepare Sample.config
               (Sample.options Sample.meta undefined) Sample.settings)
      (Sample.platform Sample.date) = inr call
    /\ tools_sandbox (pc_tools call) = Sample.sandbox
    /\ create_answer (Sample.platform Sample.date) (Sample.ms "10m")
       = inr (tools_sandbox (pc_tools call)).
Proof.
  eexists. split; [reflexivity|]. split; [reflexivity|].
  apply (prepareCall_one_sandbox Sample.config Sample.ms
           (Sample.files Sample.config) ContextBuilder.generateFileTree
           (Sample.platform Sample.date)
           (Sample.options Sample.meta undefined) Sample.settings _ eq_refl).
Defined.

Lemma runGongAgent_loop_after_preparation_witness :
  accepts Sample.config Sample.ms (Sample.files Sample.config)
    (Sample.platform Sample.date)
    {| webhookData := webhookData (Sample.options Sample.meta undefined);
       sfdcAccountId := val "001A0000012345" |} = true.
Proof.
  eapply proj1.
  eapply (runGongAgent_loop_after_preparation Sample.config Sample.ms
            (Sample.files Sample.config) ContextBuilder.generateFileTree
            (Sample.platform Sample.date)
            (webhookData (Sample.options Sample.meta undefined))
            (val "001A0000012345")).
  right. right. right. right. left. reflexivity.
Defined.

Lemma runGongAgent_writes_generated_witness :
  Sample.files Sample.config
    (webhookData (Sample.options Sample.meta undefined)) (val "001A0000012345")
  <> [].
Proof.
  eapply proj1, proj2.
  eapply (runGongAgent_writes_generated Sample.config Sample.ms
            (Sample.files Sample.config) ContextBuilder.generateFileTree
            (Sample.platform Sample.date)
            (webhookData (Sample.options Sample.meta undefined))
            (val "001A0000012345") Sample.sandbox).
  right. right. right. left. reflexivity.
Defined.

